(** * Timeweb Cloud MCP server: formatting, dispatch and error mapping

    A shallow embedding of the TypeScript sources of the server
    (services/api.ts, schemas/common.ts, constants.ts, index.ts, the tool
    handlers of tools/servers.ts and tools/databases.ts and the body and
    request of every other create handler), followed by the properties of
    the specification that were checked against it.

    Conventions of the embedding.
    - A JavaScript number is an IEEE 754 double. The numbers the code uses
      as counts, identifiers and window bounds are integers: a [Z] stands
      for the double of that value. The sums and quotients of
      [buildPaginationResponse] are rounded to the nearest double, ties to
      even, over the whole exponent range ([Js.divide], [Js.nearest]); the
      quotient of [formatBytes] is a division by a power of two, which is
      exact, and is kept as a rational [Q]. The results that are no finite
      number ([NaN], [Infinity]) are constructors of [JsNum] and [Double].
    - A JavaScript string is a [string]; template literals are
      concatenations.
    - A JavaScript object used as a record of optional arguments is a Rocq
      record with [option] fields: [None] is [undefined].
    - A JavaScript object assembled key by key (a request body) is an
      association list in insertion order, the order JSON.stringify keeps.
    - An [async] handler is a computation in a state-and-exception monad
      over [World]: the module-level [apiClient] singleton and the log of
      the requests issued so far. [throw] and a rejected promise are the
      [Thrown] outcome. *)

From Stdlib Require Import ZArith QArith Qround String Ascii List Lia Bool.
From Stdlib Require Import DecimalString DecimalZ Lqa.
Import ListNotations.

Set Warnings "-register-all".

Local Open Scope string_scope.
Local Open Scope Z_scope.

(* ===================================================================== *)
(** * JavaScript primitives used by the sources                         *)
(* ===================================================================== *)

Module Js.

(** Characters that cannot be written inside a literal. *)
Definition dquote : ascii := ascii_of_nat 34.
Definition backslash : ascii := ascii_of_nat 92.
Definition newline : ascii := ascii_of_nat 10.

Definition nl : string := String newline EmptyString.
Definition quoted (s : string) : string :=
  String dquote (s ++ String dquote EmptyString).

(** [String(n)] for an integer-valued number below 1e21. *)
Definition string_of_Z (z : Z) : string :=
  NilZero.string_of_int (Z.to_int z).

(** An integer-valued number, with the three values that are no finite
    number. *)
Inductive JsNum : Type :=
| Fin (z : Z)
| PosInf
| NegInf
| NaN.

Definition JsNum_toString (n : JsNum) : string :=
  match n with
  | Fin z => string_of_Z z
  | PosInf => "Infinity"
  | NegInf => "-Infinity"
  | NaN => "NaN"
  end.

(** A double that need not be an integer: [Dyadic m s] is [m * 2^s]. *)
Inductive Double : Type :=
| Dyadic (m s : Z)
| DPosInf
| DNegInf
| DNaN.

(** The double nearest to the quotient [a / b] of two positive integers,
    as a mantissa and an exponent. The exponent of the quotient is read off
    its integer part after scaling by 2^1100, and is not taken below the
    one of the smallest normal number; the mantissa has 53 bits and is
    rounded to nearest, to even on a tie. *)
Definition nearest_quotient (a b : Z) : Z * Z :=
  let e := Z.max (Z.log2 (Z.shiftl a 1100 / b) - 1100) (-1022) in
  let s := e - 52 in
  let n := if s <? 0 then Z.shiftl a (- s) else a in
  let d := if s <? 0 then b else Z.shiftl b s in
  let m := n / d in
  let r := n mod d in
  (if (d <? 2 * r) || ((d =? 2 * r) && Z.odd m) then m + 1 else m, s).

(** [a / b] for integers [a], [b]: division by zero gives NaN or a signed
    infinity, a quotient of magnitude 2^1024 or more after rounding is a
    signed infinity, every other quotient is the nearest double. *)
Definition divide (a b : Z) : Double :=
  if b =? 0 then
    (if a =? 0 then DNaN else if 0 <? a then DPosInf else DNegInf)
  else if a =? 0 then Dyadic 0 0
  else
    let (m, s) := nearest_quotient (Z.abs a) (Z.abs b) in
    let positive := (0 <? a) && (0 <? b) || (a <? 0) && (b <? 0) in
    if 1024 <=? Z.log2 m + s
    then (if positive then DPosInf else DNegInf)
    else Dyadic (if positive then m else - m) s.

(** [Math.floor] and [Math.ceil]. *)
Definition floor (d : Double) : JsNum :=
  match d with
  | Dyadic m s => Fin (if s <? 0 then m / 2 ^ (- s) else m * 2 ^ s)
  | DPosInf => PosInf
  | DNegInf => NegInf
  | DNaN => NaN
  end.

Definition ceil (d : Double) : JsNum :=
  match d with
  | Dyadic m s => Fin (if s <? 0 then - ((- m) / 2 ^ (- s)) else m * 2 ^ s)
  | DPosInf => PosInf
  | DNegInf => NegInf
  | DNaN => NaN
  end.

(** The double nearest to the integer [x]: what a sum of two integers
    whose exact value is [x] evaluates to. It is [x] itself up to 2^53. *)
Definition nearest (x : Z) : JsNum := floor (divide x 1).

(** [n + k] for a finite integer [k]. *)
Definition JsNum_add (n : JsNum) (k : Z) : JsNum :=
  match n with
  | Fin z => nearest (z + k)
  | other => other
  end.

(** [n < x] and [Math.min(n, x)] for a finite integer [x]. *)
Definition less (n : JsNum) (x : Z) : bool :=
  match n with
  | Fin z => z <? x
  | PosInf => false
  | NegInf => true
  | NaN => false
  end.

Definition minimum (n : JsNum) (x : Z) : JsNum :=
  match n with
  | Fin z => Fin (Z.min z x)
  | PosInf => Fin x
  | NegInf => NegInf
  | NaN => NaN
  end.

(** [Array.prototype.join]. *)
Fixpoint join (sep : string) (l : list string) : string :=
  match l with
  | [] => EmptyString
  | [x] => x
  | x :: rest => x ++ sep ++ join sep rest
  end.

(** [String.prototype.includes] and [startsWith]. *)
Fixpoint includes (needle hay : string) : bool :=
  prefix needle hay
  || match hay with
     | EmptyString => false
     | String _ rest => includes needle rest
     end.

Definition startsWith (s p : string) : bool := prefix p s.

(** Truthiness of the two primitive kinds the handlers test. *)
Definition truthy_string (s : string) : bool :=
  match s with EmptyString => false | _ => true end.

Definition truthy_number (z : Z) : bool := negb (z =? 0).

(** [x || d] for an optional string and for an optional number. *)
Definition or_string (x : option string) (d : string) : string :=
  match x with
  | Some s => if truthy_string s then s else d
  | None => d
  end.

Definition truthy_opt_number (x : option Z) : bool :=
  match x with
  | Some z => truthy_number z
  | None => false
  end.

Definition or_number (x : option Z) (d : Z) : Z :=
  match x with
  | Some z => if truthy_number z then z else d
  | None => d
  end.

End Js.

(* ===================================================================== *)
(** * JSON values and [JSON.stringify(value, null, 2)]                   *)
(* ===================================================================== *)

Module Json.

Inductive value : Type :=
| JNull
| JBool (b : bool)
| JNum (z : Z)
| JStr (s : string)
| JArr (items : list value)
| JObj (props : list (string * value)).

(** Objects are assembled key by key: [obj.k = v] replaces the value of a
    key that is present and appends a new key otherwise. *)
Fixpoint set (k : string) (v : value) (o : list (string * value))
  : list (string * value) :=
  match o with
  | [] => [(k, v)]
  | (k', v') :: rest =>
      if String.eqb k k' then (k, v) :: rest else (k', v') :: set k v rest
  end.

Fixpoint get (k : string) (o : list (string * value)) : option value :=
  match o with
  | [] => None
  | (k', v) :: rest => if String.eqb k k' then Some v else get k rest
  end.

Definition keys (o : list (string * value)) : list string := map fst o.

(** QuoteJSONString of ECMA-262. *)
Definition hex_digit (n : nat) : ascii :=
  if Nat.ltb n 10 then ascii_of_nat (48 + n) else ascii_of_nat (87 + n).

Definition escape_char (c : ascii) : string :=
  let n := nat_of_ascii c in
  if Nat.eqb n 34 then String Js.backslash (String Js.dquote EmptyString)
  else if Nat.eqb n 92 then String Js.backslash (String Js.backslash EmptyString)
  else if Nat.eqb n 8 then String Js.backslash "b"
  else if Nat.eqb n 12 then String Js.backslash "f"
  else if Nat.eqb n 10 then String Js.backslash "n"
  else if Nat.eqb n 13 then String Js.backslash "r"
  else if Nat.eqb n 9 then String Js.backslash "t"
  else if Nat.ltb n 32 then
    String Js.backslash
      ("u00" ++ String (hex_digit (Nat.div n 16))
                  (String (hex_digit (Nat.modulo n 16)) EmptyString))
  else String c EmptyString.

Fixpoint escape (s : string) : string :=
  match s with
  | EmptyString => EmptyString
  | String c rest => escape_char c ++ escape rest
  end.

Definition quote (s : string) : string := Js.quoted (escape s).

Fixpoint spaces (n : nat) : string :=
  match n with
  | O => EmptyString
  | S m => String " " (spaces m)
  end.

(** SerializeJSONProperty with a gap of two spaces; [ind] is the current
    indentation. *)
Fixpoint stringify_at (ind : nat) (v : value) : string :=
  match v with
  | JNull => "null"
  | JBool true => "true"
  | JBool false => "false"
  | JNum z => Js.string_of_Z z
  | JStr s => quote s
  | JArr [] => "[]"
  | JArr items =>
      let inner := (2 + ind)%nat in
      "[" ++ Js.nl ++ spaces inner
          ++ Js.join ("," ++ Js.nl ++ spaces inner)
               (map (stringify_at inner) items)
          ++ Js.nl ++ spaces ind ++ "]"
  | JObj [] => "{}"
  | JObj props =>
      let inner := (2 + ind)%nat in
      "{" ++ Js.nl ++ spaces inner
          ++ Js.join ("," ++ Js.nl ++ spaces inner)
               (map (fun kv => quote (fst kv) ++ ": "
                                 ++ stringify_at inner (snd kv)) props)
          ++ Js.nl ++ spaces ind ++ "}"
  end.

Definition stringify (v : value) : string := stringify_at 0 v.

End Json.


(* ===================================================================== *)
(** * constants.ts                                                       *)
(* ===================================================================== *)

Definition API_BASE_URL : string := "https://api.timeweb.cloud".
Definition CHARACTER_LIMIT : Z := 25000.
Definition DEFAULT_LIMIT : Z := 50.
Definition MAX_LIMIT : Z := 100.
Definition REQUEST_TIMEOUT : Z := 30000.

(* ===================================================================== *)
(** * types.ts                                                           *)
(* ===================================================================== *)

Inductive ResponseFormat : Type :=
| MARKDOWN
| JSON.

Definition ResponseFormat_value (f : ResponseFormat) : string :=
  match f with
  | MARKDOWN => "markdown"
  | JSON => "json"
  end.

(** [(args.format as ResponseFormat) || ResponseFormat.MARKDOWN]: both
    members of the enum are non-empty strings, hence truthy. *)
Definition format_or_markdown (f : option ResponseFormat) : ResponseFormat :=
  match f with
  | Some x => x
  | None => MARKDOWN
  end.

(* ===================================================================== *)
(** * The world a handler runs in                                        *)
(* ===================================================================== *)

Inductive Method : Type := GET | POST | PUT | PATCH | DELETE.

(** What [axios.create] is given. *)
Record AxiosInstance : Type := mkAxiosInstance {
  baseURL : string;
  timeout : Z;
  headers : list (string * string)
}.

Record AxiosRequestConfig : Type := mkConfig {
  method : Method;
  url : string;
  params : option (list (string * Json.value));
  data : option Json.value
}.

(** The body of a failed response, as [handleApiError] reads it:
    [{ message?: string | string[] }]. *)
Inductive MessageField : Type :=
| MsgString (s : string)
| MsgArray (l : list string).

Record ErrorResponse : Type := mkErrorResponse {
  status : Z;
  response_message : option MessageField
}.

(** Values that can be thrown. [AxiosError] is a subclass of [Error]; its
    [response] is present when the backend answered with a status outside
    2xx, its [code] names a transport failure. *)
Inductive Exn : Type :=
| AxiosError (response : option ErrorResponse) (code : option string)
             (message : string)
| Error (message : string)
| ThrownValue (as_string : string).

Record World : Type := mkWorld {
  apiClient : option AxiosInstance;
  outbound : list (AxiosInstance * AxiosRequestConfig)
}.

Inductive Outcome (A : Type) : Type :=
| Returned (a : A)
| Threw (e : Exn).
Arguments Returned {A} a.
Arguments Threw {A} e.

Definition M (A : Type) : Type := World -> Outcome A * World.

Definition ret {A : Type} (a : A) : M A := fun w => (Returned a, w).

Definition throw {A : Type} (e : Exn) : M A := fun w => (Threw e, w).

Definition bind {A B : Type} (m : M A) (k : A -> M B) : M B :=
  fun w =>
    match m w with
    | (Returned a, w') => k a w'
    | (Threw e, w') => (Threw e, w')
    end.

Declare Scope handler_scope.
Delimit Scope handler_scope with handler.
Notation "x <- m ;; k" := (bind m (fun x => k))
  (at level 61, m at next level, right associativity) : handler_scope.
Local Open Scope handler_scope.

(** The Transport Client's network side: what the backend answers to a
    request sent through a given client, decoded at the type [T] the caller
    casts the payload to. A status outside 2xx or a transport failure is the
    left injection. *)
Definition Transport (T : Type) : Type :=
  AxiosInstance -> AxiosRequestConfig -> Exn + T.

(** [client.request<T>(config)], awaited: the request leaves the process,
    then the promise settles. *)
Definition request {T : Type} (net : Transport T) (client : AxiosInstance)
  (config : AxiosRequestConfig) : M T :=
  fun w =>
    let w' := mkWorld (apiClient w) (outbound w ++ [(client, config)]) in
    match net client config with
    | inl e => (Threw e, w')
    | inr payload => (Returned payload, w')
    end.

(* ===================================================================== *)
(** * services/api.ts                                                    *)
(* ===================================================================== *)

Definition initializeApiClient (token : string) : M unit :=
  fun w =>
    (Returned tt,
     mkWorld
       (Some (mkAxiosInstance API_BASE_URL REQUEST_TIMEOUT
                [("Content-Type", "application/json");
                 ("Accept", "application/json");
                 ("Authorization", "Bearer " ++ token)]))
       (outbound w)).

Definition not_initialized : string :=
  "API client not initialized. Set TIMEWEB_CLOUD_TOKEN environment variable.".

Definition getApiClient : M AxiosInstance :=
  fun w =>
    match apiClient w with
    | None => throw (Error not_initialized) w
    | Some client => ret client w
    end.

Definition makeApiRequest {T : Type} (net : Transport T) (method : Method)
  (endpoint : string) (params : option (list (string * Json.value)))
  (data : option Json.value) : M T :=
  client <- getApiClient ;;
  let config := mkConfig method endpoint params data in
  response <- request net client config ;;
  ret response.

(** [data?.message], joined when it is an array; the empty string when it
    is absent or falsy. *)
Definition error_message (r : ErrorResponse) : string :=
  match response_message r with
  | Some (MsgString s) => s
  | Some (MsgArray l) => Js.join ", " l
  | None => EmptyString
  end.

Definition handleApiError (error : Exn) : string :=
  let unexpected (m : string) := "Error: Unexpected error occurred: " ++ m in
  match error with
  | AxiosError (Some r) _ _ =>
      let message := error_message r in
      let message_or (d : string) := Js.or_string (Some message) d in
      if status r =? 400 then
        "Error: Bad request. " ++ message_or "Please check your parameters."
      else if status r =? 401 then
        "Error: Authentication failed. Please check your API token."
      else if status r =? 403 then
        "Error: Permission denied. "
          ++ message_or "You don't have access to this resource."
      else if status r =? 404 then
        "Error: Resource not found. "
          ++ message_or "Please check the ID is correct."
      else if status r =? 409 then
        "Error: Conflict. "
          ++ message_or "The request conflicts with the current state."
      else if status r =? 423 then
        "Error: Resource locked. "
          ++ message_or "The resource is locked from this operation."
      else if status r =? 429 then
        "Error: Rate limit exceeded. Please wait before making more requests."
      else if status r =? 500 then
        "Error: Internal server error. "
          ++ message_or "Please try again later or contact support."
      else
        "Error: API request failed with status "
          ++ Js.string_of_Z (status r) ++ ". " ++ message
  | AxiosError None (Some code) m =>
      if String.eqb code "ECONNABORTED" then
        "Error: Request timed out. Please try again."
      else if String.eqb code "ENOTFOUND" then
        "Error: Could not connect to Timeweb Cloud API. Check your network connection."
      else unexpected m
  | AxiosError None None m => unexpected m
  | Error m => unexpected m
  | ThrownValue s => unexpected s
  end.

(** ** formatBytes *)

Definition sizes : list string := ["B"; "KB"; "MB"; "GB"; "TB"].

(** [sizes[i]] inside a string concatenation: an index outside the array
    reads [undefined]. *)
Definition sizes_at (i : Z) : string :=
  if i <? 0 then "undefined"
  else nth (Z.to_nat i) sizes "undefined".

(** [Math.floor(Math.log(bytes) / Math.log(k))] with [k = 1024], for an
    integer byte count: the exact base-1024 logarithm, rounded down. The
    logarithm of 0 is [-Infinity], of a negative number [NaN]. (The double
    quotient agrees with the exact one except just below a high power of
    1024, where it can round up to the integer above.) *)
Definition log_k_floor (bytes : Z) : Js.JsNum :=
  if bytes <? 0 then Js.NaN
  else if bytes =? 0 then Js.NegInf
  else Js.Fin (Z.log2 bytes / 10).

(** [x.toFixed(2)] as the integer number of hundredths it prints: the
    integer [n] for which [n / 100 - x] is closest to zero, the larger one
    on a tie; a negative [x] is formatted through its absolute value. *)
Definition toFixed2 (x : Q) : Z :=
  let half_up (y : Q) := Qfloor (y * inject_Z 100 + (1 # 2))%Q in
  if Qle_bool 0%Q x then half_up x else - half_up (- x)%Q.

(** [String(parseFloat(s))] for the two-decimal string [s] of [n]
    hundredths: trailing zeros of the fraction are gone. *)
Definition two_digits (r : Z) : string :=
  if r <? 10 then "0" ++ Js.string_of_Z r else Js.string_of_Z r.

Definition parseFloat_toString (n : Z) : string :=
  let a := Z.abs n in
  let whole := a / 100 in
  let frac := a mod 100 in
  (if n <? 0 then "-" else EmptyString)
    ++ Js.string_of_Z whole
    ++ (if frac =? 0 then EmptyString
        else if frac mod 10 =? 0 then "." ++ Js.string_of_Z (frac / 10)
        else "." ++ two_digits frac).

Definition formatBytes (bytes : Z) : string :=
  if bytes =? 0 then "0 B"
  else
    match log_k_floor bytes with
    | Js.Fin i =>
        parseFloat_toString
          (toFixed2 (inject_Z bytes / inject_Z (1024 ^ i))%Q)
          ++ " " ++ sizes_at i
    | _ => "NaN" ++ " " ++ "undefined"
    end.

(** ** buildPaginationResponse *)

(** [Math.floor(offset / limit) + 1] *)
Definition currentPage (limit offset : Z) : Js.JsNum :=
  Js.JsNum_add (Js.floor (Js.divide offset limit)) 1.

(** [Math.ceil(total / limit)] *)
Definition totalPages (total limit : Z) : Js.JsNum :=
  Js.ceil (Js.divide total limit).

(** [offset + limit < total] *)
Definition hasMore (total limit offset : Z) : bool :=
  Js.less (Js.nearest (offset + limit)) total.

Definition more_results_note : string :=
  "*Use offset parameter to see more results.*".

Definition buildPaginationResponse (total limit offset : Z) : string :=
  "Showing " ++ Js.JsNum_toString (Js.nearest (offset + 1))
    ++ "-" ++ Js.JsNum_toString (Js.minimum (Js.nearest (offset + limit)) total)
    ++ " of " ++ Js.string_of_Z total
    ++ " items (Page " ++ Js.JsNum_toString (currentPage limit offset)
    ++ "/" ++ Js.JsNum_toString (totalPages total limit)
    ++ ")"
    ++ (if hasMore total limit offset
        then Js.nl ++ more_results_note
        else EmptyString).

(* ===================================================================== *)
(** * Tool results and argument handling shared by the handlers        *)
(* ===================================================================== *)

Record ContentItem : Type := mkContent {
  content_type : string;
  text : string
}.

Record ToolResult : Type := mkResult {
  content : list ContentItem
}.

(** [{ content: [{ type: "text", text }] }] *)
Definition text_result (t : string) : ToolResult :=
  mkResult [mkContent "text" t].

(** [if (args.k) body.k = args.k] for a string and for a number, and
    [if (args.k !== undefined) body.k = args.k] for a boolean. *)
Definition Body : Type := list (string * Json.value).

Definition assign_if_string (k : string) (v : option string) (body : Body)
  : Body :=
  match v with
  | Some s => if Js.truthy_string s then Json.set k (Json.JStr s) body else body
  | None => body
  end.

Definition assign_if_number (k : string) (v : option Z) (body : Body)
  : Body :=
  match v with
  | Some z => if Js.truthy_number z then Json.set k (Json.JNum z) body else body
  | None => body
  end.

Definition assign_if_defined_bool (k : string) (v : option bool) (body : Body)
  : Body :=
  match v with
  | Some b => Json.set k (Json.JBool b) body
  | None => body
  end.


(** [if (args.k) body.k = args.k] for an array, which is truthy whatever
    it holds. *)
Definition assign_if_array (k : string) (v : option (list Json.value))
  (body : Body) : Body :=
  match v with
  | Some l => Json.set k (Json.JArr l) body
  | None => body
  end.

(** The arguments of a paginated list tool after validation:
    [{ ...paginationSchema, format: responseFormatSchema }]. *)
Record ListArgs : Type := mkListArgs {
  limit : option Z;
  offset : option Z;
  format : option ResponseFormat
}.

Record Meta : Type := mkMeta {
  total : option Z
}.

(** [response.meta?.total] *)
Definition meta_total (m : option Meta) : option Z :=
  match m with
  | Some x => total x
  | None => None
  end.

(** [Math.min((args.limit as number) || DEFAULT_LIMIT, MAX_LIMIT)] *)
Definition effective_limit (args : ListArgs) : Z :=
  Z.min (Js.or_number (limit args) DEFAULT_LIMIT) MAX_LIMIT.

(** [(args.offset as number) || 0] *)
Definition effective_offset (args : ListArgs) : Z :=
  Js.or_number (offset args) 0.

Definition window_params (l o : Z) : option (list (string * Json.value)) :=
  Some [("limit", Json.JNum l); ("offset", Json.JNum o)].

(** [items || []] *)
Definition or_empty {A : Type} (items : option (list A)) : list A :=
  match items with
  | Some l => l
  | None => []
  end.

(* ===================================================================== *)
(** * tools/servers.ts                                                   *)
(* ===================================================================== *)

Module Servers.

(** The fields of the [Server] interface that the formatter reads. *)
Record Os : Type := mkOs {
  os_name : string;
  os_version : option string
}.

Record Configurator : Type := mkConfigurator {
  conf_cpu : Z;
  conf_ram : Z;
  conf_disk : Z
}.

Record Server : Type := mkServer {
  id : Z;
  name : string;
  status : string;
  location : string;
  os : option Os;
  configurator : option Configurator;
  cpu : Z;
  ram : Z;
  main_ipv4 : option string;
  bandwidth : option Z;
  created_at : string
}.

Record OsImage : Type := mkOsImage {
  image_id : Z;
  image_name : string;
  image_version : option string
}.

Definition MiB (n : Z) : Z := n * 1024 * 1024.

(** [srv.configurator?.cpu || srv.cpu || "N/A"] inside the template. *)
Definition cpu_text (srv : Server) : string :=
  let conf_cpu := option_map conf_cpu (configurator srv) in
  match conf_cpu with
  | Some c =>
      if Js.truthy_number c then Js.string_of_Z c
      else if Js.truthy_number (cpu srv) then Js.string_of_Z (cpu srv)
      else "N/A"
  | None =>
      if Js.truthy_number (cpu srv) then Js.string_of_Z (cpu srv) else "N/A"
  end.

Definition ram_text (srv : Server) : string :=
  match configurator srv with
  | Some c =>
      if Js.truthy_number (conf_ram c) then formatBytes (MiB (conf_ram c))
      else formatBytes (MiB (ram srv))
  | None => formatBytes (MiB (ram srv))
  end.

Definition disk_text (srv : Server) : string :=
  match configurator srv with
  | Some c =>
      if Js.truthy_number (conf_disk c) then formatBytes (MiB (conf_disk c))
      else "N/A"
  | None => "N/A"
  end.

Definition bandwidth_text (srv : Server) : string :=
  match bandwidth srv with
  | Some b => if Js.truthy_number b then formatBytes b ++ "/s" else "N/A"
  | None => "N/A"
  end.

Definition formatServer (srv : Server) : string :=
  "## " ++ name srv ++ " (ID: " ++ Js.string_of_Z (id srv) ++ ")" ++ Js.nl
  ++ "- **Status:** " ++ status srv ++ Js.nl
  ++ "- **Location:** " ++ location srv ++ Js.nl
  ++ "- **OS:** " ++ Js.or_string (option_map os_name (os srv)) "N/A"
  ++ " "
  ++ Js.or_string
       (match os srv with Some o => os_version o | None => None end)
       EmptyString
  ++ Js.nl
  ++ "- **CPU:** " ++ cpu_text srv ++ " cores" ++ Js.nl
  ++ "- **RAM:** " ++ ram_text srv ++ Js.nl
  ++ "- **Disk:** " ++ disk_text srv ++ Js.nl
  ++ "- **Main IP:** " ++ Js.or_string (main_ipv4 srv) "N/A" ++ Js.nl
  ++ "- **Bandwidth:** " ++ bandwidth_text srv ++ Js.nl
  ++ "- **Created:** " ++ created_at srv.

Record ListResponse : Type := mkListResponse {
  servers : option (list Server);
  meta : option Meta
}.

Record OsResponse : Type := mkOsResponse {
  os_images : option (list OsImage)
}.

Record CreateArgs : Type := mkCreateArgs {
  arg_name : string;
  arg_os_id : Z;
  arg_preset_id : option Z;
  arg_cpu : option Z;
  arg_ram : option Z;
  arg_disk : option Z;
  arg_bandwidth : option Z;
  arg_location : option string;
  arg_ssh_keys_ids : option (list Z);
  arg_is_ddos_guard : option bool;
  arg_format : option ResponseFormat
}.

(** [{ ...((body.configurator as object) || {}), k: v }] *)
Definition spread_configurator (body : Body) : Body :=
  match Json.get "configurator" body with
  | Some (Json.JObj o) => o
  | _ => []
  end.

Definition assign_configurator (k : string) (v : option Z) (body : Body)
  : Body :=
  match v with
  | Some z =>
      if Js.truthy_number z
      then Json.set "configurator"
             (Json.JObj (Json.set k (Json.JNum z) (spread_configurator body)))
             body
      else body
  | None => body
  end.

(** Lines 115-131 of the [timeweb_create_server] handler. *)
Definition create_server_body (args : CreateArgs) : Body :=
  let body := [("name", Json.JStr (arg_name args));
               ("os_id", Json.JNum (arg_os_id args))] in
  let body :=
    if Js.truthy_opt_number (arg_preset_id args)
    then assign_if_number "preset_id" (arg_preset_id args) body
    else
      let body := assign_configurator "cpu" (arg_cpu args) body in
      let body := assign_configurator "ram" (arg_ram args) body in
      assign_configurator "disk" (arg_disk args) body in
  let body := assign_if_number "bandwidth" (arg_bandwidth args) body in
  let body := assign_if_string "location" (arg_location args) body in
  let body :=
    assign_if_array "ssh_keys_ids"
      (option_map (map Json.JNum) (arg_ssh_keys_ids args)) body in
  assign_if_defined_bool "is_ddos_guard" (arg_is_ddos_guard args) body.

Record CreateResponse : Type := mkCreateResponse {
  server : Server
}.

Section Handlers.

(** The JSON value a descriptor was parsed from: structured mode
    serialises it again without looking inside. *)
Variable server_json : Server -> Json.value.
Variable image_json : OsImage -> Json.value.

Definition timeweb_list_servers (net : Transport ListResponse)
  (args : ListArgs) : M ToolResult :=
  let limit := effective_limit args in
  let offset := effective_offset args in
  let format := format_or_markdown (format args) in
  response <- makeApiRequest net GET "/api/v1/servers"
                (window_params limit offset) None ;;
  let servers := or_empty (servers response) in
  let total :=
    Js.or_number (meta_total (meta response)) (Z.of_nat (length servers)) in
  match format with
  | JSON =>
      ret (text_result
             (Json.stringify
                (Json.JObj
                   [("servers", Json.JArr (map server_json servers));
                    ("total", Json.JNum total);
                    ("limit", Json.JNum limit);
                    ("offset", Json.JNum offset)])))
  | MARKDOWN =>
      if (length servers =? 0)%nat then ret (text_result "No servers found.")
      else
        ret (text_result
               ("# Cloud Servers" ++ Js.nl ++ Js.nl
                  ++ buildPaginationResponse total limit offset
                  ++ Js.nl ++ Js.nl
                  ++ Js.join (Js.nl ++ Js.nl) (map formatServer servers)))
  end.

Definition timeweb_create_server (net : Transport CreateResponse)
  (args : CreateArgs) : M ToolResult :=
  let format := format_or_markdown (arg_format args) in
  let body := create_server_body args in
  response <- makeApiRequest net POST "/api/v1/servers" None
                (Some (Json.JObj body)) ;;
  let srv := server response in
  match format with
  | JSON => ret (text_result (Json.stringify (server_json srv)))
  | MARKDOWN =>
      ret (text_result
             ("# Server Created Successfully" ++ Js.nl ++ Js.nl
                ++ formatServer srv))
  end.

Definition format_os_line (os : OsImage) : string :=
  "- **" ++ image_name os ++ "** (ID: " ++ Js.string_of_Z (image_id os)
    ++ ") - " ++ Js.or_string (image_version os) "latest".

Definition timeweb_list_os (net : Transport OsResponse)
  (fmt : option ResponseFormat) : M ToolResult :=
  let format := format_or_markdown fmt in
  response <- makeApiRequest net GET "/api/v1/os/servers" None None ;;
  let images := or_empty (os_images response) in
  match format with
  | JSON =>
      ret (text_result (Json.stringify (Json.JArr (map image_json images))))
  | MARKDOWN =>
      if (length images =? 0)%nat then ret (text_result "No OS images found.")
      else
        ret (text_result
               ("# Available Operating Systems" ++ Js.nl ++ Js.nl
                  ++ Js.join Js.nl (map format_os_line images)))
  end.

(** The arguments of the tools that address one server:
    [{ server_id: idSchema(...), format: responseFormatSchema }]. *)
Record IdArgs : Type := mkIdArgs {
  server_id : Z;
  id_format : option ResponseFormat
}.

Definition timeweb_get_server (net : Transport CreateResponse)
  (args : IdArgs) : M ToolResult :=
  let serverId := server_id args in
  let format := format_or_markdown (id_format args) in
  response <- makeApiRequest net GET
                ("/api/v1/servers/" ++ Js.string_of_Z serverId) None None ;;
  let srv := server response in
  match format with
  | JSON => ret (text_result (Json.stringify (server_json srv)))
  | MARKDOWN => ret (text_result (formatServer srv))
  end.

Record ActionArgs : Type := mkActionArgs {
  action_server_id : Z;
  action : string;
  action_format : option ResponseFormat
}.

(** The payload of the answer is not read. *)
Definition timeweb_server_action {T : Type} (net : Transport T)
  (args : ActionArgs) : M ToolResult :=
  let serverId := action_server_id args in
  let action := action args in
  let format := format_or_markdown (action_format args) in
  ignored <- makeApiRequest net POST
               ("/api/v1/servers/" ++ Js.string_of_Z serverId ++ "/" ++ action)
               None None ;;
  let text :=
    "Action **" ++ action ++ "** initiated successfully on server "
      ++ Js.string_of_Z serverId ++ "." in
  match format with
  | JSON =>
      ret (text_result
             (Json.stringify
                (Json.JObj [("success", Json.JBool true);
                            ("server_id", Json.JNum serverId);
                            ("action", Json.JStr action)])))
  | MARKDOWN => ret (text_result text)
  end.

Definition timeweb_delete_server {T : Type} (net : Transport T)
  (args : IdArgs) : M ToolResult :=
  let serverId := server_id args in
  let format := format_or_markdown (id_format args) in
  ignored <- makeApiRequest net DELETE
               ("/api/v1/servers/" ++ Js.string_of_Z serverId) None None ;;
  match format with
  | JSON =>
      ret (text_result
             (Json.stringify
                (Json.JObj [("success", Json.JBool true);
                            ("deleted_server_id", Json.JNum serverId)])))
  | MARKDOWN =>
      ret (text_result
             ("Server " ++ Js.string_of_Z serverId
                ++ " has been deleted successfully."))
  end.

(** Lines 344-351 of the [timeweb_get_server_statistics] handler: the
    query of the request,
    [Object.keys(params).length > 0 ? params : undefined]. *)
Definition statistics_params (date_from date_to : option string)
  : option (list (string * Json.value)) :=
  let params := [] in
  let params := assign_if_string "date_from" date_from params in
  let params := assign_if_string "date_to" date_to params in
  if (0 <? length params)%nat then Some params else None.

End Handlers.

End Servers.

(* ===================================================================== *)
(** * tools/databases.ts                                                 *)
(* ===================================================================== *)

Module Databases.

Record Admin : Type := mkAdmin {
  login : string
}.

(** The fields of the [DatabaseCluster] interface that the formatter
    reads. *)
Record DatabaseCluster : Type := mkDatabaseCluster {
  id : Z;
  name : string;
  type : string;
  status : string;
  location : string;
  host : option string;
  port : Z;
  admin : option Admin;
  created_at : string
}.

Definition formatDatabase (db : DatabaseCluster) : string :=
  "## " ++ name db ++ " (ID: " ++ Js.string_of_Z (id db) ++ ")" ++ Js.nl
  ++ "- **Type:** " ++ type db ++ Js.nl
  ++ "- **Status:** " ++ status db ++ Js.nl
  ++ "- **Location:** " ++ location db ++ Js.nl
  ++ "- **Host:** " ++ Js.or_string (host db) "N/A" ++ Js.nl
  ++ "- **Port:** "
  ++ (if Js.truthy_number (port db) then Js.string_of_Z (port db) else "N/A")
  ++ Js.nl
  ++ "- **Admin Login:** "
  ++ Js.or_string (option_map login (admin db)) "N/A" ++ Js.nl
  ++ "- **Created:** " ++ created_at db.

Record ListResponse : Type := mkListResponse {
  dbs : option (list DatabaseCluster);
  meta : option Meta
}.

Record DbResponse : Type := mkDbResponse {
  db : DatabaseCluster
}.

Record GetArgs : Type := mkGetArgs {
  db_id : Z;
  get_format : option ResponseFormat
}.

Record CreateArgs : Type := mkCreateArgs {
  arg_name : string;
  arg_type : string;
  arg_preset_id : Z;
  arg_login : option string;
  arg_password : option string;
  arg_hash_type : option string;
  arg_location : option string;
  arg_format : option ResponseFormat
}.

(** Lines 110-119 of the [timeweb_create_database] handler. *)
Definition create_database_body (args : CreateArgs) : Body :=
  let body := [("name", Json.JStr (arg_name args));
               ("type", Json.JStr (arg_type args));
               ("preset_id", Json.JNum (arg_preset_id args))] in
  let body := assign_if_string "login" (arg_login args) body in
  let body := assign_if_string "password" (arg_password args) body in
  let body := assign_if_string "hash_type" (arg_hash_type args) body in
  assign_if_string "location" (arg_location args) body.

Section Handlers.

Variable database_json : DatabaseCluster -> Json.value.

Definition timeweb_list_databases (net : Transport ListResponse)
  (args : ListArgs) : M ToolResult :=
  let limit := effective_limit args in
  let offset := effective_offset args in
  let format := format_or_markdown (format args) in
  response <- makeApiRequest net GET "/api/v1/dbs"
                (window_params limit offset) None ;;
  let databases := or_empty (dbs response) in
  let total :=
    Js.or_number (meta_total (meta response)) (Z.of_nat (length databases)) in
  match format with
  | JSON =>
      ret (text_result
             (Json.stringify
                (Json.JObj
                   [("databases", Json.JArr (map database_json databases));
                    ("total", Json.JNum total);
                    ("limit", Json.JNum limit);
                    ("offset", Json.JNum offset)])))
  | MARKDOWN =>
      if (length databases =? 0)%nat
      then ret (text_result "No databases found.")
      else
        ret (text_result
               ("# Database Clusters" ++ Js.nl ++ Js.nl
                  ++ buildPaginationResponse total limit offset
                  ++ Js.nl ++ Js.nl
                  ++ Js.join (Js.nl ++ Js.nl) (map formatDatabase databases)))
  end.

Definition timeweb_get_database (net : Transport DbResponse)
  (args : GetArgs) : M ToolResult :=
  let dbId := db_id args in
  let format := format_or_markdown (get_format args) in
  response <- makeApiRequest net GET ("/api/v1/dbs/" ++ Js.string_of_Z dbId)
                None None ;;
  let db := db response in
  match format with
  | JSON => ret (text_result (Json.stringify (database_json db)))
  | MARKDOWN => ret (text_result (formatDatabase db))
  end.

Definition timeweb_create_database (net : Transport DbResponse)
  (args : CreateArgs) : M ToolResult :=
  let format := format_or_markdown (arg_format args) in
  let body := create_database_body args in
  response <- makeApiRequest net POST "/api/v1/dbs" None
                (Some (Json.JObj body)) ;;
  let db := db response in
  match format with
  | JSON => ret (text_result (Json.stringify (database_json db)))
  | MARKDOWN =>
      ret (text_result
             ("# Database Created Successfully" ++ Js.nl ++ Js.nl
                ++ formatDatabase db))
  end.

Definition timeweb_delete_database {T : Type} (net : Transport T)
  (args : GetArgs) : M ToolResult :=
  let dbId := db_id args in
  let format := format_or_markdown (get_format args) in
  ignored <- makeApiRequest net DELETE
               ("/api/v1/dbs/" ++ Js.string_of_Z dbId) None None ;;
  match format with
  | JSON =>
      ret (text_result
             (Json.stringify
                (Json.JObj [("success", Json.JBool true);
                            ("deleted_db_id", Json.JNum dbId)])))
  | MARKDOWN =>
      ret (text_result
             ("Database cluster " ++ Js.string_of_Z dbId
                ++ " has been deleted successfully."))
  end.

End Handlers.

End Databases.

(* ===================================================================== *)
(** * The create handlers of tools/kubernetes.ts, tools/firewall.ts,
      tools/floating-ips.ts and tools/vpc.ts: arguments and body          *)
(* ===================================================================== *)

Module Kubernetes.

Record WorkerGroup : Type := mkWorkerGroup {
  group_name : string;
  group_preset_id : Z;
  node_count : Z
}.

Definition worker_group_json (g : WorkerGroup) : Json.value :=
  Json.JObj [("name", Json.JStr (group_name g));
             ("preset_id", Json.JNum (group_preset_id g));
             ("node_count", Json.JNum (node_count g))].

Record CreateArgs : Type := mkCreateArgs {
  arg_name : string;
  arg_k8s_version : option string;
  arg_preset_id : Z;
  arg_worker_groups : option (list WorkerGroup);
  arg_network_driver : option string;
  arg_ingress : option bool;
  arg_description : option string;
  arg_format : option ResponseFormat
}.

(** Lines 117-126 of the [timeweb_create_k8s_cluster] handler. *)
Definition create_k8s_cluster_body (args : CreateArgs) : Body :=
  let body := [("name", Json.JStr (arg_name args));
               ("preset_id", Json.JNum (arg_preset_id args))] in
  let body := assign_if_string "k8s_version" (arg_k8s_version args) body in
  let body :=
    assign_if_array "worker_groups"
      (option_map (map worker_group_json) (arg_worker_groups args)) body in
  let body :=
    assign_if_string "network_driver" (arg_network_driver args) body in
  let body := assign_if_defined_bool "ingress" (arg_ingress args) body in
  assign_if_string "description" (arg_description args) body.


End Kubernetes.

Module Firewall.

Record CreateGroupArgs : Type := mkCreateGroupArgs {
  arg_name : string;
  arg_description : option string;
  arg_incoming_traffic_policy : option string;
  arg_outgoing_traffic_policy : option string;
  arg_format : option ResponseFormat
}.

(** Lines 110-116 of the [timeweb_create_firewall_group] handler. *)
Definition create_firewall_group_body (args : CreateGroupArgs) : Body :=
  let body := [("name", Json.JStr (arg_name args))] in
  let body := assign_if_string "description" (arg_description args) body in
  let body :=
    assign_if_string "incoming_traffic_policy"
      (arg_incoming_traffic_policy args) body in
  assign_if_string "outgoing_traffic_policy"
    (arg_outgoing_traffic_policy args) body.


Record CreateRuleArgs : Type := mkCreateRuleArgs {
  arg_group_id : Z;
  arg_direction : string;
  arg_protocol : string;
  arg_port : option string;
  arg_cidr : string;
  arg_rule_description : option string;
  arg_rule_format : option ResponseFormat
}.

(** Lines 262-269 of the [timeweb_create_firewall_rule] handler; the
    group identifier goes into the path of the request. *)
Definition create_firewall_rule_body (args : CreateRuleArgs) : Body :=
  let body := [("direction", Json.JStr (arg_direction args));
               ("protocol", Json.JStr (arg_protocol args));
               ("cidr", Json.JStr (arg_cidr args))] in
  let body := assign_if_string "port" (arg_port args) body in
  assign_if_string "description" (arg_rule_description args) body.

Definition create_firewall_rule_path (args : CreateRuleArgs) : string :=
  "/api/v1/firewall/groups/" ++ Js.string_of_Z (arg_group_id args)
    ++ "/rules".

(** Lines 271-276: the request of the handler. *)
Definition create_firewall_rule_request (args : CreateRuleArgs)
  : AxiosRequestConfig :=
  mkConfig POST (create_firewall_rule_path args) None
    (Some (Json.JObj (create_firewall_rule_body args))).

End Firewall.

Module FloatingIps.

Record CreateArgs : Type := mkCreateArgs {
  arg_availability_zone : option string;
  arg_is_ddos_guard : option bool;
  arg_comment : option string;
  arg_format : option ResponseFormat
}.

(** Lines 104-107 of the [timeweb_create_floating_ip] handler. *)
Definition create_floating_ip_body (args : CreateArgs) : Body :=
  let body := [] in
  let body :=
    assign_if_string "availability_zone" (arg_availability_zone args) body in
  let body :=
    assign_if_defined_bool "is_ddos_guard" (arg_is_ddos_guard args) body in
  assign_if_string "comment" (arg_comment args) body.


End FloatingIps.

Module Vpc.

Record CreateArgs : Type := mkCreateArgs {
  arg_name : string;
  arg_subnet_v4 : option string;
  arg_location : option string;
  arg_description : option string;
  arg_format : option ResponseFormat
}.

(** Lines 119-125 of the [timeweb_create_vpc] handler. *)
Definition create_vpc_body (args : CreateArgs) : Body :=
  let body := [("name", Json.JStr (arg_name args))] in
  let body := assign_if_string "subnet_v4" (arg_subnet_v4 args) body in
  let body := assign_if_string "location" (arg_location args) body in
  assign_if_string "description" (arg_description args) body.


End Vpc.

(* ===================================================================== *)
(** * The other create handlers of the sources: arguments, body and
      request (database backups, server disks, object storage, SSH keys,
      load balancers, images, apps, DNS records, projects)                *)
(* ===================================================================== *)

(** The second copy of tools/databases.ts, which has the backup tools. *)
Module DatabaseBackups.

Record CreateArgs : Type := mkCreateArgs {
  arg_db_id : Z;
  arg_comment : option string;
  arg_format : option ResponseFormat
}.



End DatabaseBackups.

(** tools/disks.ts *)
Module Disks.

Record CreateArgs : Type := mkCreateArgs {
  arg_server_id : Z;
  arg_size : Z;
  arg_type : option string;
  arg_format : option ResponseFormat
}.



End Disks.

(** tools/storage.ts *)
Module Storage.

Record CreateArgs : Type := mkCreateArgs {
  arg_name : string;
  arg_preset_id : Z;
  arg_type : option string;
  arg_location : option string;
  arg_format : option ResponseFormat
}.



End Storage.

(** tools/ssh-keys.ts *)
Module SshKeys.

Record CreateArgs : Type := mkCreateArgs {
  arg_name : string;
  arg_body : string;
  arg_format : option ResponseFormat
}.



End SshKeys.

(** tools/balancers.ts *)
Module Balancers.

Record CreateArgs : Type := mkCreateArgs {
  arg_name : string;
  arg_preset_id : Z;
  arg_algo : option string;
  arg_port : option Z;
  arg_is_sticky : option bool;
  arg_is_use_proxy : option bool;
  arg_is_ssl : option bool;
  arg_is_keepalive : option bool;
  arg_inter : option Z;
  arg_timeout : option Z;
  arg_fall : option Z;
  arg_rise : option Z;
  arg_format : option ResponseFormat
}.



Record CreateRuleArgs : Type := mkCreateRuleArgs {
  arg_balancer_id : Z;
  arg_balancer_proto : string;
  arg_balancer_port : Z;
  arg_server_proto : string;
  arg_server_port : Z;
  arg_rule_format : option ResponseFormat
}.



End Balancers.

(** tools/images.ts *)
Module Images.

Record CreateArgs : Type := mkCreateArgs {
  arg_disk_id : Z;
  arg_name : string;
  arg_description : option string;
  arg_format : option ResponseFormat
}.



End Images.

(** tools/apps.ts *)
Module Apps.

(** [envs] is the record of environment variables as the list of its
    entries, in the order [Object.entries] gives them. *)
Record CreateArgs : Type := mkCreateArgs {
  arg_name : string;
  arg_type : string;
  arg_preset_id : Z;
  arg_repository_id : Z;
  arg_branch : option string;
  arg_build_command : option string;
  arg_run_command : option string;
  arg_envs : option (list (string * string));
  arg_format : option ResponseFormat
}.




End Apps.

(** tools/domains.ts *)
Module Domains.




End Domains.

(** tools/projects.ts *)
Module Projects.

Record CreateArgs : Type := mkCreateArgs {
  arg_name : string;
  arg_description : option string;
  arg_avatar_id : option string;
  arg_format : option ResponseFormat
}.



End Projects.

(* ===================================================================== *)
(** * schemas/common.ts                                                  *)
(* ===================================================================== *)

Module Zod.

(** The fragment of the schema language the common schemas are written
    in. *)
Inductive Check : Type :=
| int
| min (n : Z)
| max (n : Z)
| positive.

Inductive Schema : Type :=
| number (checks : list Check)
| nativeEnum (values : list string)
| optional (inner : Schema).

Inductive IssueCode : Type :=
| invalid_type
| too_small
| too_big
| invalid_enum_value.

Record Issue : Type := mkIssue {
  path : string;
  code : IssueCode
}.

(** A [JNum] carries an integer, so [int] has nothing to reject. *)
Definition check_number (z : Z) (c : Check) : list IssueCode :=
  match c with
  | int => []
  | min n => if z <? n then [too_small] else []
  | max n => if n <? z then [too_big] else []
  | positive => if z <=? 0 then [too_small] else []
  end.

(** What parsing one argument reports; [None] is an argument that was
    not supplied. *)
Fixpoint parse (s : Schema) (input : option Json.value) : list IssueCode :=
  match s, input with
  | optional _, None => []
  | optional inner, Some v => parse inner (Some v)
  | number checks, Some (Json.JNum z) => flat_map (check_number z) checks
  | number _, _ => [invalid_type]
  | nativeEnum values, Some (Json.JStr v) =>
      if existsb (String.eqb v) values then [] else [invalid_enum_value]
  | nativeEnum _, _ => [invalid_type]
  end.

Definition Shape : Type := list (string * Schema).

Definition parse_object (shape : Shape) (args : list (string * Json.value))
  : list Issue :=
  flat_map
    (fun entry =>
       map (mkIssue (fst entry)) (parse (snd entry) (Json.get (fst entry) args)))
    shape.

End Zod.

Definition paginationSchema : Zod.Shape :=
  [("limit",
    Zod.optional (Zod.number [Zod.int; Zod.min 1; Zod.max MAX_LIMIT]));
   ("offset", Zod.optional (Zod.number [Zod.int; Zod.min 0]))].

Definition responseFormatSchema : Zod.Schema :=
  Zod.optional
    (Zod.nativeEnum [ResponseFormat_value MARKDOWN; ResponseFormat_value JSON]).


(* ===================================================================== *)
(** * The tool registry                                                  *)
(* ===================================================================== *)

(** What [server.tool(name, description, shape, handler)] registers. The
    handler reads the validated argument object at the type its casts
    give it; [decode] is that reading. *)
Record Tool : Type := mkTool {
  tool_name : string;
  description : string;
  inputSchema : Zod.Shape;
  Args : Type;
  decode : list (string * Json.value) -> Args;
  handler : Args -> M ToolResult
}.

Inductive CallResult : Type :=
| InvalidArgument (tool : string) (issues : list Zod.Issue)
| Completed (outcome : Outcome ToolResult).

(** Modelled from the spec: the registry is the protocol server, an
    external collaborator whose code is not part of the sources. Section
    4.1 fixes its contract: the arguments are validated against the tool's
    schema, and a validation failure rejects the invocation with an
    InvalidArgument error naming the offending fields before the handler
    runs. *)
Definition callTool (t : Tool) (raw : list (string * Json.value))
  : World -> CallResult * World :=
  fun w =>
    match Zod.parse_object (inputSchema t) raw with
    | [] =>
        let (outcome, w') := handler t (decode t raw) w in
        (Completed outcome, w')
    | issues => (InvalidArgument (tool_name t) issues, w)
    end.

Definition as_number (v : option Json.value) : option Z :=
  match v with
  | Some (Json.JNum z) => Some z
  | _ => None
  end.

Definition as_format (v : option Json.value) : option ResponseFormat :=
  match v with
  | Some (Json.JStr s) =>
      if String.eqb s "json" then Some JSON
      else if String.eqb s "markdown" then Some MARKDOWN
      else None
  | _ => None
  end.

Definition decode_list_args (raw : list (string * Json.value)) : ListArgs :=
  mkListArgs (as_number (Json.get "limit" raw))
             (as_number (Json.get "offset" raw))
             (as_format (Json.get "format" raw)).

Definition list_servers_tool (server_json : Servers.Server -> Json.value)
  (net : Transport Servers.ListResponse) : Tool :=
  mkTool "timeweb_list_servers"
         "List all cloud servers in the account with pagination support"
         (paginationSchema ++ [("format", responseFormatSchema)])%list
         ListArgs decode_list_args
         (Servers.timeweb_list_servers server_json net).

Definition list_databases_tool
  (database_json : Databases.DatabaseCluster -> Json.value)
  (net : Transport Databases.ListResponse) : Tool :=
  mkTool "timeweb_list_databases"
         "List all database clusters in the account"
         (paginationSchema ++ [("format", responseFormatSchema)])%list
         ListArgs decode_list_args
         (Databases.timeweb_list_databases database_json net).

(* ===================================================================== *)
(** * index.ts                                                           *)
(* ===================================================================== *)

Definition VERSION : string := "1.0.0".

Record McpServer : Type := mkServer {
  server_name : string;
  server_version : string;
  tools : list string
}.

Definition register (names : list string) (s : McpServer) : McpServer :=
  mkServer (server_name s) (server_version s) (tools s ++ names)%list.

Definition registerAccountTools : McpServer -> McpServer :=
  register ["timeweb_get_account_status"; "timeweb_get_finances";
            "timeweb_get_service_prices"].

Definition registerServerTools : McpServer -> McpServer :=
  register ["timeweb_list_servers"; "timeweb_get_server";
            "timeweb_create_server"; "timeweb_server_action";
            "timeweb_delete_server"; "timeweb_list_os";
            "timeweb_list_server_presets"; "timeweb_get_server_logs";
            "timeweb_get_server_statistics"].

(** The sources hold two copies of this function; the tools below are in
    both. *)
Definition registerDatabaseTools : McpServer -> McpServer :=
  register ["timeweb_list_databases"; "timeweb_get_database";
            "timeweb_create_database"; "timeweb_delete_database";
            "timeweb_list_database_presets"].

Definition registerKubernetesTools : McpServer -> McpServer :=
  register ["timeweb_list_k8s_clusters"; "timeweb_get_k8s_cluster";
            "timeweb_create_k8s_cluster"; "timeweb_delete_k8s_cluster";
            "timeweb_get_kubeconfig"; "timeweb_list_k8s_versions"].

Definition registerStorageTools : McpServer -> McpServer :=
  register ["timeweb_list_s3_storages"; "timeweb_create_s3_storage";
            "timeweb_delete_s3_storage"; "timeweb_list_s3_presets"].

Definition registerDomainTools : McpServer -> McpServer :=
  register ["timeweb_list_domains"; "timeweb_get_domain";
            "timeweb_check_domain"; "timeweb_list_dns_records";
            "timeweb_create_dns_record"; "timeweb_delete_dns_record"].

Definition registerSshKeyTools : McpServer -> McpServer :=
  register ["timeweb_list_ssh_keys"; "timeweb_get_ssh_key";
            "timeweb_create_ssh_key"; "timeweb_delete_ssh_key";
            "timeweb_add_ssh_key_to_server"].

Definition registerFloatingIpTools : McpServer -> McpServer :=
  register ["timeweb_list_floating_ips"; "timeweb_get_floating_ip";
            "timeweb_create_floating_ip"; "timeweb_delete_floating_ip";
            "timeweb_bind_floating_ip"; "timeweb_unbind_floating_ip"].

Definition registerLocationTools : McpServer -> McpServer :=
  register ["timeweb_list_locations"].

Definition registerProjectTools : McpServer -> McpServer :=
  register ["timeweb_list_projects"; "timeweb_get_project";
            "timeweb_create_project"; "timeweb_delete_project"].



(** How [main] leaves the process: [process.exit(code)], or connected to
    the transport with the tools it registered. *)
Inductive MainOutcome : Type :=
| ProcessExit (exit_code : Z) (w : World)
| Connected (server : McpServer) (w : World).

(** [token] is [process.env.TIMEWEB_CLOUD_TOKEN]; [!token] holds for an
    unset variable and for an empty one. *)
Definition main (token : option string) (w : World) : MainOutcome :=
  if negb (Js.truthy_string (Js.or_string token EmptyString))
  then ProcessExit 1 w
  else
    let w := snd (initializeApiClient (Js.or_string token EmptyString) w) in
    let server := mkServer "timeweb-mcp-server" VERSION [] in
    let server := registerAccountTools server in
    let server := registerServerTools server in
    let server := registerDatabaseTools server in
    let server := registerKubernetesTools server in
    let server := registerStorageTools server in
    let server := registerDomainTools server in
    let server := registerSshKeyTools server in
    let server := registerFloatingIpTools server in
    let server := registerLocationTools server in
    let server := registerProjectTools server in
    Connected server w.

Definition registered_tools (o : MainOutcome) : list string :=
  match o with
  | ProcessExit _ _ => []
  | Connected server _ => tools server
  end.

Definition world_after (o : MainOutcome) : World :=
  match o with
  | ProcessExit _ w => w
  | Connected _ w => w
  end.

(* ===================================================================== *)
(** * Vocabulary of the statements                                       *)
(* ===================================================================== *)

(** [free_of c s]: the character [c] does not occur in [s]. *)
Fixpoint free_of (c : ascii) (s : string) : bool :=
  match s with
  | EmptyString => true
  | String a rest => negb (Ascii.eqb a c) && free_of c rest
  end.

(** The characters of the decimal form of an integer. *)
Definition digit_or_minus (c : ascii) : bool :=
  existsb (Ascii.eqb c) (list_ascii_of_string "0123456789-").

(** Rounding an exact quotient of integers down and up, on the integers:
    [floor_of a b p] says [p = floor(a / b)] and [ceil_of a b t] says
    [t = ceil(a / b)], for a positive [b]. *)
Definition floor_of (a b p : Z) : Prop := p * b <= a < (p + 1) * b.
Definition ceil_of (a b t : Z) : Prop := (t - 1) * b < a <= t * b.

(** A rendered list view: the fixed sentence when the page is empty;
    otherwise a heading, a blank line, the summary line, a blank line and
    the sections of the items, one blank line between two of them. *)
Definition rendered_page (heading no_items summary : string)
  (sections : list string) : string :=
  match sections with
  | [] => no_items
  | _ =>
      heading ++ Js.nl ++ Js.nl ++ summary ++ Js.nl ++ Js.nl
        ++ Js.join (Js.nl ++ Js.nl) sections
  end.


(** An optional argument with its falsy values read as not supplied. *)
Definition drop_falsy_string (v : option string) : option string :=
  match v with
  | Some s => if Js.truthy_string s then Some s else None
  | None => None
  end.

Definition drop_falsy_number (v : option Z) : option Z :=
  match v with
  | Some z => if Js.truthy_number z then Some z else None
  | None => None
  end.

(** The statuses [handleApiError] has a message of their own for. *)
Definition mapped_statuses : list Z :=
  [400; 401; 403; 404; 409; 423; 429; 500].

(** An optional field of an object: present when the value is. *)
Definition field_if_number (k : string) (v : option Z) : Body :=
  match drop_falsy_number v with
  | Some z => [(k, Json.JNum z)]
  | None => []
  end.

Definition field_if_string (k : string) (v : option string) : Body :=
  match drop_falsy_string v with
  | Some x => [(k, Json.JStr x)]
  | None => []
  end.

(** The keys of the body of [timeweb_create_database]. *)
Definition database_body_keys : list string :=
  ["name"; "type"; "preset_id"; "login"; "password"; "hash_type"; "location"].


(** ** Concrete worlds and backends used as examples *)

(** The world after [initializeApiClient] ran on a fresh process. *)
Definition initialised : World :=
  snd (initializeApiClient "secret-token" (mkWorld None [])).

(** The failure axios raises for a response with status 404 and no body
    message. *)
Definition not_found : Exn :=
  AxiosError (Some (mkErrorResponse 404 None)) (Some "ERR_BAD_REQUEST")
    "Request failed with status code 404".

Definition backend_404 {T : Type} : Transport T :=
  fun _ _ => inl not_found.

Definition no_json {A : Type} : A -> Json.value := fun _ => Json.JNull.

Definition web_1 : Servers.Server :=
  Servers.mkServer 101 "web-1" "on" "ru-1"
    (Some (Servers.mkOs "ubuntu" (Some "22.04"))) None 2 2048
    (Some "203.0.113.10") None "2024-01-01T10:00:00.000Z".

Definition web_2 : Servers.Server :=
  Servers.mkServer 102 "web-2" "off" "nl-1" None
    (Some (Servers.mkConfigurator 4 8192 81920)) 4 8192 None (Some 1536)
    "2024-02-01T10:00:00.000Z".

(** A backend that holds two servers and reports [total = 2]. *)
Definition two_servers : Transport Servers.ListResponse :=
  fun _ _ =>
    inr (Servers.mkListResponse (Some [web_1; web_2])
           (Some (mkMeta (Some 2)))).

(** A backend with no database cluster. *)
Definition no_databases : Transport Databases.ListResponse :=
  fun _ _ => inr (Databases.mkListResponse (Some []) None).

(** The client that [initialised] holds. *)
Definition the_client : AxiosInstance :=
  mkAxiosInstance API_BASE_URL REQUEST_TIMEOUT
    [("Content-Type", "application/json");
     ("Accept", "application/json");
     ("Authorization", "Bearer secret-token")].

(** A backend with one operating-system image. *)
Definition one_image : Transport Servers.OsResponse :=
  fun _ _ =>
    inr (Servers.mkOsResponse
           (Some [Servers.mkOsImage 79 "ubuntu" (Some "22.04")])).


(* ===================================================================== *)
(** * Facts about strings                                                *)
(* ===================================================================== *)

Lemma free_of_app c a b :
  free_of c (a ++ b) = free_of c a && free_of c b.
Proof.
  induction a as [|x a IH]; simpl; [reflexivity|].
  rewrite IH. now rewrite andb_assoc.
Qed.

Lemma free_of_cons_digit c d rest :
  digit_or_minus c = false ->
  In d (list_ascii_of_string "0123456789-") ->
  free_of c rest = true ->
  free_of c (String d rest) = true.
Proof.
  intros Hc Hd Hrest. cbn [free_of]. rewrite Hrest, andb_true_r.
  destruct (Ascii.eqb_spec d c) as [->|]; [|reflexivity].
  unfold digit_or_minus in Hc.
  assert (existsb (Ascii.eqb c) (list_ascii_of_string "0123456789-") = true)
    by (apply existsb_exists; exists c; split;
        [exact Hd|apply Ascii.eqb_refl]).
  congruence.
Qed.

Lemma digit_free_uint c u :
  digit_or_minus c = false -> free_of c (NilEmpty.string_of_uint u) = true.
Proof.
  intros Hc.
  induction u; cbn [NilEmpty.string_of_uint]; try reflexivity;
    (apply free_of_cons_digit; [exact Hc|simpl; auto 12|exact IHu]).
Qed.

Lemma digit_free_string_of_Z c z :
  digit_or_minus c = false -> free_of c (Js.string_of_Z z) = true.
Proof.
  intros Hc.
  unfold Js.string_of_Z, NilZero.string_of_int, NilZero.string_of_uint.
  destruct (Z.to_int z) as [u|u]; destruct u;
    repeat (apply free_of_cons_digit; [exact Hc|simpl; auto 12|]);
    try reflexivity;
    try (change (free_of c (NilEmpty.string_of_uint u) = true);
         now apply digit_free_uint).
Qed.

Lemma star_free_string_of_Z z : free_of "*" (Js.string_of_Z z) = true.
Proof. now apply digit_free_string_of_Z. Qed.

Lemma star_free_JsNum n : free_of "*" (Js.JsNum_toString n) = true.
Proof. destruct n; simpl; auto using star_free_string_of_Z. Qed.


Lemma prefix_nil s : prefix EmptyString s = true.
Proof. destruct s; reflexivity. Qed.

Lemma prefix_app p s : prefix p (p ++ s) = true.
Proof.
  induction p as [|c p IH]; simpl; [apply prefix_nil|].
  destruct (ascii_dec c c); [exact IH | contradiction].
Qed.

Lemma includes_self_app n s : Js.includes n (n ++ s) = true.
Proof.
  destruct n as [|c n]; simpl.
  - destruct s; reflexivity.
  - destruct (ascii_dec c c); [|contradiction].
    now rewrite prefix_app.
Qed.


Lemma includes_needs_char c rest hay :
  free_of c hay = true -> Js.includes (String c rest) hay = false.
Proof.
  induction hay as [|x hay IH]; simpl; [reflexivity|].
  intros H. apply andb_true_iff in H as [Hx Hhay].
  rewrite (IH Hhay), orb_false_r.
  destruct (ascii_dec c x) as [->|_]; [|reflexivity].
  now rewrite Ascii.eqb_refl in Hx.
Qed.

(* ===================================================================== *)
(** * Facts about the arithmetic of windows                              *)
(* ===================================================================== *)

(** Rounding a quotient to the nearest integer moves it by at most a
    half. *)
Lemma round_bounds n d m r :
  0 < d -> m = n / d -> r = n mod d ->
  let m' := if (d <? 2 * r) || ((d =? 2 * r) && Z.odd m) then m + 1 else m in
  2 * n - d <= 2 * d * m' <= 2 * n + d.
Proof.
  intros Hd Hm Hr.
  pose proof (Z.div_mod n d ltac:(lia)) as Hdm.
  pose proof (Z.mod_pos_bound n d Hd) as Hb.
  rewrite <- Hm, <- Hr in *.
  cbv zeta.
  destruct (Z.ltb_spec d (2 * r)); cbn [orb].
  - nia.
  - destruct (Z.eqb_spec d (2 * r)); cbn [andb].
    + destruct (Z.odd m); nia.
    + nia.
Qed.

Lemma pow2_split (p q : Z) :
  0 <= p -> 0 <= q -> 2 ^ (p + q) = 2 ^ p * 2 ^ q.
Proof. intros. now apply Z.pow_add_r. Qed.

(** The quotient of two integers below 2^53: the mantissa [m] of the
    nearest double, its unit [2^-k], and how far [m] is from the exact
    quotient in that unit. *)
Lemma nearest_quotient_safe a b :
  0 < a < 2 ^ 53 -> 0 < b < 2 ^ 53 ->
  exists m k : Z,
    Js.nearest_quotient a b = (m, - k)
    /\ 0 <= k
    /\ b < 2 * 2 ^ k
    /\ 2 * (a * 2 ^ k) - b <= 2 * b * m <= 2 * (a * 2 ^ k) + b.
Proof.
  intros Ha Hb.
  unfold Js.nearest_quotient.
  rewrite (Z.shiftl_mul_pow2 a 1100) by lia.
  set (X := a * 2 ^ 1100 / b).
  assert (H1100 : 0 < 2 ^ 1100) by (apply Z.pow_pos_nonneg; lia).
  assert (H1047 : 0 < 2 ^ 1047) by (apply Z.pow_pos_nonneg; lia).
  assert (E1100 : 2 ^ 1100 = 2 ^ 53 * 2 ^ 1047)
    by (rewrite <- pow2_split by lia; reflexivity).
  assert (E1153 : 2 ^ 1153 = 2 ^ 53 * 2 ^ 1100)
    by (rewrite <- pow2_split by lia; reflexivity).
  assert (HX : b * X <= a * 2 ^ 1100).
  { unfold X. apply Z.mul_div_le. lia. }
  assert (Hlow : 2 ^ 1047 <= X).
  { unfold X. apply Z.div_le_lower_bound; [lia|].
    rewrite E1100. nia. }
  assert (Hpos : 0 < X) by lia.
  assert (Hhigh : X < 2 ^ 1153).
  { assert (X <= a * 2 ^ 1100).
    { unfold X. apply Z.div_le_upper_bound; [lia|].
      nia. }
    rewrite E1153. nia. }
  pose proof (Z.log2_spec X Hpos) as [Hl1 _].
  assert (Hl : 1047 <= Z.log2 X <= 1152).
  { split.
    - rewrite <- (Z.log2_pow2 1047) by lia. now apply Z.log2_le_mono.
    - assert (Z.log2 X < 1153); [|lia].
      apply Z.log2_lt_pow2; assumption. }
  set (l := Z.log2 X) in *.
  rewrite Z.max_l by lia.
  set (k := 1152 - l).
  replace (l - 1100 - 52) with (- k) by (unfold k; lia).
  assert (Hk : 0 <= k) by (unfold k; lia).
  assert (Hbk : b < 2 * 2 ^ k).
  { assert (Hpk : 2 * 2 ^ k * 2 ^ l = 2 ^ 1153).
    { replace 1153 with (1 + k + l) by (unfold k; lia).
      rewrite !pow2_split by lia. reflexivity. }
    assert (0 < 2 ^ l) by (apply Z.pow_pos_nonneg; lia).
    assert (b * 2 ^ l < 2 * 2 ^ k * 2 ^ l).
    { rewrite Hpk, E1153. nia. }
    nia. }
  assert (Hn : (if - k <? 0 then Z.shiftl a (- - k) else a) = a * 2 ^ k).
  { destruct (Z.ltb_spec (- k) 0).
    - rewrite Z.opp_involutive, Z.shiftl_mul_pow2 by lia. reflexivity.
    - replace k with 0 by lia. simpl. lia. }
  assert (Hd : (if - k <? 0 then b else Z.shiftl b (- k)) = b).
  { destruct (Z.ltb_spec (- k) 0); [reflexivity|].
    replace k with 0 by lia. reflexivity. }
  cbv zeta. rewrite Hn, Hd.
  eexists. exists k. split; [reflexivity|].
  split; [exact Hk|]. split; [exact Hbk|].
  apply (round_bounds (a * 2 ^ k) b _ _ ltac:(lia) eq_refl eq_refl).
Qed.

Lemma divide_safe a b :
  0 < a < 2 ^ 53 -> 0 < b < 2 ^ 53 ->
  exists m k : Z,
    Js.divide a b = Js.Dyadic m (- k)
    /\ 0 <= k
    /\ b < 2 * 2 ^ k
    /\ 2 * (a * 2 ^ k) - b <= 2 * b * m <= 2 * (a * 2 ^ k) + b.
Proof.
  intros Ha Hb.
  destruct (nearest_quotient_safe a b Ha Hb) as (m & k & Hq & Hk & Hbk & Hm).
  exists m, k. split; [|split; [exact Hk|split; [exact Hbk|exact Hm]]].
  unfold Js.divide.
  destruct (Z.eqb_spec b 0); [lia|].
  destruct (Z.eqb_spec a 0); [lia|].
  rewrite !Z.abs_eq by lia. rewrite Hq.
  destruct (Z.ltb_spec 0 a); [|lia].
  destruct (Z.ltb_spec 0 b); [|lia].
  cbn [andb orb].
  assert (Hpk : 0 < 2 ^ k) by (apply Z.pow_pos_nonneg; lia).
  assert (Hmb : 0 <= m <= 2 ^ (54 + k)).
  { rewrite pow2_split by lia.
    change (2 ^ 54) with (2 * 2 ^ 53).
    split; nia. }
  assert (Z.log2 m <= 54 + k).
  { rewrite <- (Z.log2_pow2 (54 + k)) by lia.
    apply Z.log2_le_mono. lia. }
  destruct (Z.leb_spec 1024 (Z.log2 m + - k)); [lia|reflexivity].
Qed.

(** Below 2^53, [Math.floor] and [Math.ceil] of the double quotient are
    the floor and the ceiling of the exact quotient: rounding to the
    nearest double never crosses an integer. *)
Lemma floor_divide_safe a b :
  0 <= a < 2 ^ 53 -> 0 < b < 2 ^ 53 ->
  Js.floor (Js.divide a b) = Js.Fin (a / b).
Proof.
  intros Ha Hb.
  destruct (Z.eq_dec a 0) as [->|Hne].
  { unfold Js.divide. destruct (Z.eqb_spec b 0); [lia|]. reflexivity. }
  destruct (divide_safe a b ltac:(lia) Hb) as (m & k & -> & Hk & Hbk & Hm).
  unfold Js.floor. f_equal.
  assert (Hpk : 0 < 2 ^ k) by (apply Z.pow_pos_nonneg; lia).
  pose proof (Z.div_mod a b ltac:(lia)) as Hdm.
  pose proof (Z.mod_pos_bound a b ltac:(lia)) as Hr.
  set (n := a / b) in *. set (t := a mod b) in *.
  assert (Hbounds : n * 2 ^ k <= m < (n + 1) * 2 ^ k).
  { set (P := 2 ^ k) in *. split; nia. }
  destruct (Z.ltb_spec (- k) 0).
  - rewrite Z.opp_involutive.
    symmetry. apply (Z.div_unique m (2 ^ k) n (m - n * 2 ^ k)); lia.
  - replace k with 0 in * by lia. simpl in *. lia.
Qed.


(** An integer up to 2^53 is a double; a larger one rounds to a double of
    at least 2^53, or to [Infinity]. *)
Lemma nearest_safe x : 0 <= x <= 2 ^ 53 -> Js.nearest x = Js.Fin x.
Proof.
  intros Hx.
  destruct (Z.eq_dec x (2 ^ 53)) as [->|Hne]; [vm_compute; reflexivity|].
  unfold Js.nearest.
  rewrite floor_divide_safe by lia. now rewrite Z.div_1_r.
Qed.

Lemma nearest_large x :
  2 ^ 53 <= x ->
  Js.nearest x = Js.PosInf
  \/ exists z, Js.nearest x = Js.Fin z /\ 2 ^ 53 <= z.
Proof.
  intros Hx. unfold Js.nearest, Js.divide.
  destruct (Z.eqb_spec 1 0); [lia|].
  destruct (Z.eqb_spec x 0); [lia|].
  rewrite !Z.abs_eq by lia.
  destruct (Z.ltb_spec 0 x); [|lia].
  change (0 <? 1) with true. cbn [andb orb].
  unfold Js.nearest_quotient.
  rewrite Z.div_1_r, (Z.shiftl_mul_pow2 x 1100) by lia.
  rewrite Z.log2_mul_pow2 by lia.
  assert (Hl : 53 <= Z.log2 x).
  { rewrite <- (Z.log2_pow2 53) by lia. now apply Z.log2_le_mono. }
  pose proof (Z.log2_spec x ltac:(lia)) as [Hl1 _].
  set (l := Z.log2 x) in *.
  replace (1100 + l - 1100) with l by lia.
  rewrite Z.max_l by lia.
  destruct (Z.ltb_spec (l - 52) 0); [lia|].
  rewrite (Z.shiftl_mul_pow2 1 (l - 52)) by lia. rewrite Z.mul_1_l.
  set (s := l - 52) in *.
  assert (Hps : 2 <= 2 ^ s).
  { change 2 with (2 ^ 1) at 1. apply Z.pow_le_mono_r; lia. }
  assert (Hm0 : 2 ^ 52 <= x / 2 ^ s).
  { apply Z.div_le_lower_bound; [lia|].
    replace l with (s + 52) in Hl1 by (unfold s; lia).
    rewrite pow2_split in Hl1 by lia. lia. }
  cbv zeta.
  set (m := if (_ <? _) || _ then _ else _).
  assert (Hm : x / 2 ^ s <= m).
  { unfold m. destruct (_ || _); lia. }
  destruct (1024 <=? Z.log2 m + s); [left; reflexivity|right].
  eexists. split; [unfold Js.floor; reflexivity|].
  destruct (Z.ltb_spec s 0); [lia|].
  change (2 ^ 53) with (2 ^ 52 * 2). nia.
Qed.

(** With a total that is a safe integer, the comparison and the minimum
    of the summary are those of the exact sum. *)
Lemma less_nearest x total :
  0 <= x -> total <= 2 ^ 53 ->
  Js.less (Js.nearest x) total = (x <? total).
Proof.
  intros Hx Ht.
  destruct (Z.le_gt_cases x (2 ^ 53)) as [Hle|Hgt].
  - now rewrite nearest_safe by lia.
  - destruct (Z.ltb_spec x total); [lia|].
    destruct (nearest_large x ltac:(lia)) as [->|(z & -> & Hz)];
      [reflexivity|].
    cbn [Js.less]. apply Z.ltb_ge. lia.
Qed.






Lemma floor_of_unique a b p q :
  0 < b -> floor_of a b p -> floor_of a b q -> p = q.
Proof. unfold floor_of. intros. nia. Qed.

Lemma ceil_of_unique a b p q :
  0 < b -> ceil_of a b p -> ceil_of a b q -> p = q.
Proof. unfold ceil_of. intros. nia. Qed.


(* ===================================================================== *)
(** * C2: pagination arithmetic                                          *)
(* ===================================================================== *)

(** At [offset = total = 2^53] and [limit = 1] the sums are no longer exact:
    [offset + 1] and [floor(offset / limit) + 1] are 2^53 + 1, which is no
    double and rounds to 2^53, so the summary reports an item and a page
    that are one short. *)
Lemma page_number_beyond_safe_integers :
  0 <= 2 ^ 53 /\ 1 <= 1 <= 100
  /\ buildPaginationResponse (2 ^ 53) 1 (2 ^ 53)
     = "Showing 9007199254740992-9007199254740992 of 9007199254740992 items (Page 9007199254740992/9007199254740992)"
  /\ currentPage 1 (2 ^ 53) = Js.Fin (2 ^ 53)
  /\ ~ floor_of (2 ^ 53) 1 (2 ^ 53 - 1)
  /\ floor_of (2 ^ 53) 1 (2 ^ 53).
Proof.
  split; [lia|]. split; [lia|].
  split; [vm_compute; reflexivity|].
  split; [vm_compute; reflexivity|].
  unfold floor_of. split; lia.
Qed.



(* ===================================================================== *)
(** * C4: byte formatting                                                *)
(* ===================================================================== *)

(** C4. [formatBytes(0)] is "0 B", [formatBytes(1536)] is "1.5 KB" and
    [formatBytes(1073741824)] is "1 GB"; the unit is meant never to exceed
    TB. At 2^51 bytes (2 PiB) the index computed from the logarithm is 5,
    past the end of [sizes], and the result carries no unit of the list. *)
Theorem formatBytes_examples_and_overflow :
  formatBytes 0 = "0 B"
  /\ formatBytes 1536 = "1.5 KB"
  /\ formatBytes 1073741824 = "1 GB"
  /\ log_k_floor (2 ^ 51) = Js.Fin 5
  /\ formatBytes (2 ^ 51) = "2 undefined"
  /\ ~ (exists (n : Z) (unit : string),
          In unit sizes
          /\ formatBytes (2 ^ 51) = parseFloat_toString n ++ " " ++ unit).
Proof.
  repeat split; try (vm_compute; reflexivity).
  intros (n & unit & Hin & Heq).
  assert (Hfree : free_of "u" (parseFloat_toString n ++ " " ++ unit) = true).
  { rewrite !free_of_app.
    assert (Hunit : free_of "u" unit = true).
    { simpl in Hin.
      destruct Hin as [<-|[<-|[<-|[<-|[<-|[]]]]]]; reflexivity. }
    rewrite Hunit. unfold parseFloat_toString, two_digits.
    rewrite !free_of_app.
    repeat match goal with
           | |- context [if ?b then _ else _] => destruct b
           end;
      rewrite ?free_of_app; simpl;
      rewrite ?digit_free_string_of_Z by reflexivity;
      reflexivity. }
  rewrite <- Heq in Hfree. vm_compute in Hfree. discriminate.
Qed.

(* ===================================================================== *)
(** * C7: the error mapping                                              *)
(* ===================================================================== *)

(** C7. The message is a function of the failure alone, which
    [handleApiError] takes as its only argument: whatever the body, the
    transport code and the text of the failure, a response with status 404
    gives a message of the "Resource not found" class (the provider's own
    text or the fixed hint after the fixed opening), and one with status
    429 gives the rate-limit message. *)
Theorem error_mapping_by_status
  (body : option MessageField) (code : option string) (m : string) :
  handleApiError (AxiosError (Some (mkErrorResponse 404 body)) code m)
  = "Error: Resource not found. "
      ++ Js.or_string (Some (error_message (mkErrorResponse 404 body)))
           "Please check the ID is correct."
  /\ Js.startsWith
       (handleApiError (AxiosError (Some (mkErrorResponse 404 body)) code m))
       "Error: Resource not found. " = true
  /\ handleApiError (AxiosError (Some (mkErrorResponse 429 body)) code m)
     = "Error: Rate limit exceeded. Please wait before making more requests.".
Proof.
  split; [reflexivity|split; [|reflexivity]].
  unfold Js.startsWith.
  change (handleApiError (AxiosError (Some (mkErrorResponse 404 body)) code m))
    with ("Error: Resource not found. "
            ++ Js.or_string (Some (error_message (mkErrorResponse 404 body)))
                 "Please check the ID is correct.").
  apply prefix_app.
Qed.

(* ===================================================================== *)
(** * C8: no request without the token                                   *)
(* ===================================================================== *)

(** A request is only ever sent through the client of the world. *)
Lemma makeApiRequest_outbound {T : Type} (net : Transport T)
  (method : Method) (endpoint : string)
  (params : option (list (string * Json.value))) (data : option Json.value)
  (w : World) :
  let w' := snd (makeApiRequest net method endpoint params data w) in
  apiClient w' = apiClient w
  /\ (outbound w' = outbound w
      \/ exists client,
           apiClient w = Some client
           /\ outbound w'
              = (outbound w
                   ++ [(client, mkConfig method endpoint params data)])%list).
Proof.
  unfold makeApiRequest, bind, getApiClient, request, ret.
  destruct (apiClient w) as [client|] eqn:Hc; simpl.
  - destruct (net client _); simpl; split; auto; right; eauto.
  - split; auto.
Qed.

(** C8. While [initializeApiClient] has not run, [apiClient] is [null]:
    [makeApiRequest] then fails with the "API client not initialized"
    error and the world, with its log of outbound requests, is as before.
    At startup an absent (or empty) token makes [main] exit with code 1,
    with no client created, no tool registered and no request sent. *)
Theorem no_call_without_token {T : Type} (net : Transport T)
  (method : Method) (endpoint : string)
  (params : option (list (string * Json.value))) (data : option Json.value)
  (w : World) :
  (apiClient w = None ->
   makeApiRequest net method endpoint params data w
   = (Threw (Error not_initialized), w))
  /\ Js.startsWith not_initialized "API client not initialized" = true
  /\ main None w = ProcessExit 1 w
  /\ main (Some EmptyString) w = ProcessExit 1 w
  /\ registered_tools (main None w) = []
  /\ world_after (main None w) = w.
Proof.
  repeat split; try reflexivity.
  intros Hnone.
  unfold makeApiRequest, bind, getApiClient. now rewrite Hnone.
Qed.

Lemma no_call_without_token_witness :
  makeApiRequest (T := unit) (fun _ _ => inr tt) GET "/api/v1/servers"
    None None (mkWorld None [])
  = (Threw (Error not_initialized), mkWorld None []).
Proof.
  apply (no_call_without_token (T := unit) (fun _ _ => inr tt) GET
           "/api/v1/servers" None None (mkWorld None [])).
  reflexivity.
Defined.

(** With a token, [main] creates the client and registers the tools. *)
Lemma main_with_token (token : string) (w : World) :
  Js.truthy_string token = true ->
  exists server client,
    main (Some token) w = Connected server (mkWorld (Some client) (outbound w))
    /\ In ("Authorization", "Bearer " ++ token) (headers client)
    /\ In "timeweb_list_servers" (tools server).
Proof.
  intros Htoken. unfold main, Js.or_string. rewrite Htoken.
  cbv iota. rewrite Htoken.
  cbn [negb]. unfold initializeApiClient. cbn [snd].
  do 2 eexists. split; [reflexivity|]. split; simpl; auto 20.
Qed.

(* ===================================================================== *)
(** * C1: what a handler does with a failed call                         *)
(* ===================================================================== *)

(** A failed call leaves any computation built on [makeApiRequest] with
    the failure itself, after the one request. *)
Lemma failed_call_propagates {T B : Type} (net : Transport T)
  (method : Method) (endpoint : string)
  (params : option (list (string * Json.value))) (data : option Json.value)
  (k : T -> M B) (w : World) (client : AxiosInstance) (e : Exn) :
  apiClient w = Some client ->
  net client (mkConfig method endpoint params data) = inl e ->
  (response <- makeApiRequest net method endpoint params data ;; k response) w
  = (Threw e,
     mkWorld (apiClient w)
       (outbound w ++ [(client, mkConfig method endpoint params data)])).
Proof.
  intros Hc Hnet.
  unfold makeApiRequest, bind, getApiClient, request, ret.
  rewrite Hc. cbv beta iota zeta. now rewrite Hnet, Hc.
Qed.

(** Rewrites a handler whose call fails, given the client of the world and
    the failure of the backend. *)
Ltac failed_call Hclient Hnet :=
  rewrite (failed_call_propagates _ _ _ _ _ _ _ _ _ Hclient Hnet).


(** The other handlers of the two files end the same way. *)
Lemma list_servers_failure
  (server_json : Servers.Server -> Json.value)
  (net : Transport Servers.ListResponse) (args : ListArgs)
  (w : World) (client : AxiosInstance) (e : Exn) :
  apiClient w = Some client ->
  net client
    (mkConfig GET "/api/v1/servers"
       (window_params (effective_limit args) (effective_offset args)) None)
  = inl e ->
  fst (Servers.timeweb_list_servers server_json net args w) = Threw e.
Proof.
  intros Hc Hnet. unfold Servers.timeweb_list_servers.
  now failed_call Hc Hnet.
Qed.

Lemma list_databases_failure
  (database_json : Databases.DatabaseCluster -> Json.value)
  (net : Transport Databases.ListResponse) (args : ListArgs)
  (w : World) (client : AxiosInstance) (e : Exn) :
  apiClient w = Some client ->
  net client
    (mkConfig GET "/api/v1/dbs"
       (window_params (effective_limit args) (effective_offset args)) None)
  = inl e ->
  fst (Databases.timeweb_list_databases database_json net args w) = Threw e.
Proof.
  intros Hc Hnet. unfold Databases.timeweb_list_databases.
  now failed_call Hc Hnet.
Qed.

Lemma create_database_failure
  (database_json : Databases.DatabaseCluster -> Json.value)
  (net : Transport Databases.DbResponse) (args : Databases.CreateArgs)
  (w : World) (client : AxiosInstance) (e : Exn) :
  apiClient w = Some client ->
  net client
    (mkConfig POST "/api/v1/dbs" None
       (Some (Json.JObj (Databases.create_database_body args))))
  = inl e ->
  fst (Databases.timeweb_create_database database_json net args w) = Threw e.
Proof.
  intros Hc Hnet. unfold Databases.timeweb_create_database.
  now failed_call Hc Hnet.
Qed.

Lemma create_server_failure
  (server_json : Servers.Server -> Json.value)
  (net : Transport Servers.CreateResponse) (args : Servers.CreateArgs)
  (w : World) (client : AxiosInstance) (e : Exn) :
  apiClient w = Some client ->
  net client
    (mkConfig POST "/api/v1/servers" None
       (Some (Json.JObj (Servers.create_server_body args))))
  = inl e ->
  fst (Servers.timeweb_create_server server_json net args w) = Threw e.
Proof.
  intros Hc Hnet. unfold Servers.timeweb_create_server.
  now failed_call Hc Hnet.
Qed.

Lemma list_os_failure
  (image_json : Servers.OsImage -> Json.value)
  (net : Transport Servers.OsResponse) (fmt : option ResponseFormat)
  (w : World) (client : AxiosInstance) (e : Exn) :
  apiClient w = Some client ->
  net client (mkConfig GET "/api/v1/os/servers" None None) = inl e ->
  fst (Servers.timeweb_list_os image_json net fmt w) = Threw e.
Proof.
  intros Hc Hnet. unfold Servers.timeweb_list_os.
  now failed_call Hc Hnet.
Qed.




(* ===================================================================== *)
(** * C3 and C9: list views                                              *)
(* ===================================================================== *)

(** A call that succeeds hands the payload to the rest of the handler,
    after the one request. *)
Lemma successful_call_continues {T B : Type} (net : Transport T)
  (method : Method) (endpoint : string)
  (params : option (list (string * Json.value))) (data : option Json.value)
  (k : T -> M B) (w : World) (client : AxiosInstance) (payload : T) :
  apiClient w = Some client ->
  net client (mkConfig method endpoint params data) = inr payload ->
  (response <- makeApiRequest net method endpoint params data ;; k response) w
  = k payload
      (mkWorld (apiClient w)
         (outbound w ++ [(client, mkConfig method endpoint params data)])).
Proof.
  intros Hc Hnet.
  unfold makeApiRequest, bind, getApiClient, request, ret.
  rewrite Hc. cbv beta iota zeta. rewrite Hnet, Hc.
  cbv beta iota zeta. now destruct (k payload _).
Qed.

(** Rewrites a handler whose call is answered. *)
Ltac answered_call Hclient Hnet :=
  rewrite (successful_call_continues _ _ _ _ _ _ _ _ _ Hclient Hnet).

Lemma length_zero_map {A : Type} (f : A -> string) (l : list A) :
  (length l =? 0)%nat = match map f l with [] => true | _ => false end.
Proof. destruct l; reflexivity. Qed.

Lemma list_servers_markdown
  (server_json : Servers.Server -> Json.value)
  (net : Transport Servers.ListResponse) (args : ListArgs) (w : World)
  (client : AxiosInstance) (response : Servers.ListResponse) :
  let limit := effective_limit args in
  let offset := effective_offset args in
  let servers := or_empty (Servers.servers response) in
  let total :=
    Js.or_number (meta_total (Servers.meta response))
      (Z.of_nat (length servers)) in
  apiClient w = Some client ->
  format_or_markdown (format args) = MARKDOWN ->
  net client
    (mkConfig GET "/api/v1/servers" (window_params limit offset) None)
  = inr response ->
  fst (Servers.timeweb_list_servers server_json net args w)
  = Returned
      (text_result
         (rendered_page "# Cloud Servers" "No servers found."
            (buildPaginationResponse total limit offset)
            (map Servers.formatServer servers))).
Proof.
  intros limit offset servers total Hc Hfmt Hnet.
  unfold Servers.timeweb_list_servers.
  answered_call Hc Hnet.
  rewrite Hfmt. fold servers.
  rewrite (length_zero_map Servers.formatServer servers).
  unfold rendered_page.
  destruct (map Servers.formatServer servers); reflexivity.
Qed.

Lemma list_databases_markdown
  (database_json : Databases.DatabaseCluster -> Json.value)
  (net : Transport Databases.ListResponse) (args : ListArgs) (w : World)
  (client : AxiosInstance) (response : Databases.ListResponse) :
  let limit := effective_limit args in
  let offset := effective_offset args in
  let databases := or_empty (Databases.dbs response) in
  let total :=
    Js.or_number (meta_total (Databases.meta response))
      (Z.of_nat (length databases)) in
  apiClient w = Some client ->
  format_or_markdown (format args) = MARKDOWN ->
  net client (mkConfig GET "/api/v1/dbs" (window_params limit offset) None)
  = inr response ->
  fst (Databases.timeweb_list_databases database_json net args w)
  = Returned
      (text_result
         (rendered_page "# Database Clusters" "No databases found."
            (buildPaginationResponse total limit offset)
            (map Databases.formatDatabase databases))).
Proof.
  intros limit offset databases total Hc Hfmt Hnet.
  unfold Databases.timeweb_list_databases.
  answered_call Hc Hnet.
  rewrite Hfmt. fold databases.
  rewrite (length_zero_map Databases.formatDatabase databases).
  unfold rendered_page.
  destruct (map Databases.formatDatabase databases); reflexivity.
Qed.

(** [timeweb_list_os] has no window: its rendered view is a heading and
    one line per image, and its structured view is the bare array. *)
Lemma list_os_views
  (image_json : Servers.OsImage -> Json.value)
  (net : Transport Servers.OsResponse) (fmt : option ResponseFormat)
  (w : World) (client : AxiosInstance) (response : Servers.OsResponse) :
  let images := or_empty (Servers.os_images response) in
  apiClient w = Some client ->
  net client (mkConfig GET "/api/v1/os/servers" None None) = inr response ->
  fst (Servers.timeweb_list_os image_json net fmt w)
  = Returned
      (text_result
         (match format_or_markdown fmt with
          | JSON => Json.stringify (Json.JArr (map image_json images))
          | MARKDOWN =>
              match images with
              | [] => "No OS images found."
              | _ =>
                  "# Available Operating Systems" ++ Js.nl ++ Js.nl
                    ++ Js.join Js.nl (map Servers.format_os_line images)
              end
          end)).
Proof.
  intros images Hc Hnet. unfold Servers.timeweb_list_os.
  answered_call Hc Hnet.
  fold images.
  destruct (format_or_markdown fmt); [|reflexivity].
  destruct images; reflexivity.
Qed.

(** A list tool without a window renders no summary line, and one line
    per item. *)
Lemma list_os_rendered_has_no_summary :
  fst (Servers.timeweb_list_os no_json one_image None initialised)
  = Returned
      (text_result
         ("# Available Operating Systems" ++ Js.nl ++ Js.nl
            ++ "- **ubuntu** (ID: 79) - 22.04"))
  /\ Js.includes "Showing"
       ("# Available Operating Systems" ++ Js.nl ++ Js.nl
          ++ "- **ubuntu** (ID: 79) - 22.04") = false.
Proof. split; vm_compute; reflexivity. Qed.

(** The claim of C3 as the specification words it fails in Scenario A:
    the rendered document does not begin with the summary line, it begins
    with the heading of the view. *)
Lemma scenario_A_begins_with_heading :
  exists t : string,
    fst (Servers.timeweb_list_servers no_json two_servers
           (mkListArgs (Some 50) (Some 0) None) initialised)
    = Returned (text_result t)
    /\ Js.startsWith t "Showing 1-2 of 2 items (Page 1/1)" = false
    /\ Js.startsWith t "# Cloud Servers" = true.
Proof.
  eexists. split; [vm_compute; reflexivity|].
  split; vm_compute; reflexivity.
Qed.

(** C3, amended. In rendered mode [timeweb_list_servers] and
    [timeweb_list_databases] answer an empty page with their fixed
    sentence and nothing else, and a page with items with the heading of
    the view, a blank line, the pagination summary, a blank line and the
    rendering of every item of the page, one blank line between two items.
    In Scenario A (limit 50, offset 0, two servers, total 2) the document
    is the heading, then "Showing 1-2 of 2 items (Page 1/1)" without the
    more-results note, then the two server sections. *)
Theorem list_views_rendered
  (server_json : Servers.Server -> Json.value)
  (database_json : Databases.DatabaseCluster -> Json.value)
  (net_s : Transport Servers.ListResponse)
  (net_d : Transport Databases.ListResponse)
  (args : ListArgs) (w : World) (client : AxiosInstance)
  (rs : Servers.ListResponse) (rd : Databases.ListResponse) :
  let limit := effective_limit args in
  let offset := effective_offset args in
  let servers := or_empty (Servers.servers rs) in
  let databases := or_empty (Databases.dbs rd) in
  apiClient w = Some client ->
  format_or_markdown (format args) = MARKDOWN ->
  net_s client
    (mkConfig GET "/api/v1/servers" (window_params limit offset) None)
  = inr rs ->
  net_d client (mkConfig GET "/api/v1/dbs" (window_params limit offset) None)
  = inr rd ->
  fst (Servers.timeweb_list_servers server_json net_s args w)
  = Returned
      (text_result
         (rendered_page "# Cloud Servers" "No servers found."
            (buildPaginationResponse
               (Js.or_number (meta_total (Servers.meta rs))
                  (Z.of_nat (length servers)))
               limit offset)
            (map Servers.formatServer servers)))
  /\ fst (Databases.timeweb_list_databases database_json net_d args w)
     = Returned
         (text_result
            (rendered_page "# Database Clusters" "No databases found."
               (buildPaginationResponse
                  (Js.or_number (meta_total (Databases.meta rd))
                     (Z.of_nat (length databases)))
                  limit offset)
               (map Databases.formatDatabase databases)))
  /\ (forall s1 s2 : Servers.Server,
        Servers.servers rs = Some [s1; s2] ->
        meta_total (Servers.meta rs) = Some 2 ->
        limit = 50 -> offset = 0 ->
        fst (Servers.timeweb_list_servers server_json net_s args w)
        = Returned
            (text_result
               ("# Cloud Servers" ++ Js.nl ++ Js.nl
                  ++ "Showing 1-2 of 2 items (Page 1/1)" ++ Js.nl ++ Js.nl
                  ++ Servers.formatServer s1 ++ Js.nl ++ Js.nl
                  ++ Servers.formatServer s2))).
Proof.
  intros limit offset servers databases Hc Hfmt Hs Hd.
  pose proof (list_servers_markdown server_json net_s args w client rs
                Hc Hfmt Hs) as Hservers.
  pose proof (list_databases_markdown database_json net_d args w client rd
                Hc Hfmt Hd) as Hdatabases.
  cbv zeta in Hservers, Hdatabases.
  split; [exact Hservers|split; [exact Hdatabases|]].
  intros s1 s2 Hitems Htotal Hlimit Hoffset.
  rewrite Hservers. fold limit offset. rewrite Hitems, Htotal, Hlimit, Hoffset.
  reflexivity.
Qed.

Lemma list_views_rendered_witness :
  fst (Servers.timeweb_list_servers no_json two_servers
         (mkListArgs (Some 50) (Some 0) None) initialised)
  = Returned
      (text_result
         ("# Cloud Servers" ++ Js.nl ++ Js.nl
            ++ "Showing 1-2 of 2 items (Page 1/1)" ++ Js.nl ++ Js.nl
            ++ Servers.formatServer web_1 ++ Js.nl ++ Js.nl
            ++ Servers.formatServer web_2)).
Proof.
  apply (list_views_rendered no_json no_json two_servers no_databases
           (mkListArgs (Some 50) (Some 0) None) initialised the_client
           (Servers.mkListResponse (Some [web_1; web_2])
              (Some (mkMeta (Some 2))))
           (Databases.mkListResponse (Some []) None));
    reflexivity.
Defined.





(* ===================================================================== *)
(** * C5: validation comes before the call                               *)
(* ===================================================================== *)

Lemma parse_object_reports (shape : Zod.Shape)
  (raw : list (string * Json.value)) (k : string) (schema : Zod.Schema)
  (c : Zod.IssueCode) :
  In (k, schema) shape ->
  In c (Zod.parse schema (Json.get k raw)) ->
  In (Zod.mkIssue k c) (Zod.parse_object shape raw).
Proof.
  intros Hshape Hc. unfold Zod.parse_object.
  apply in_flat_map. exists (k, schema). split; [exact Hshape|].
  now apply in_map.
Qed.

Lemma limit_out_of_range (z : Z) :
  z < 1 \/ 100 < z ->
  exists c : Zod.IssueCode,
    In c (Zod.parse
            (Zod.optional (Zod.number [Zod.int; Zod.min 1; Zod.max MAX_LIMIT]))
            (Some (Json.JNum z)))
    /\ (z < 1 -> c = Zod.too_small) /\ (100 < z -> c = Zod.too_big).
Proof.
  intros [Hlow|Hhigh]; simpl; unfold MAX_LIMIT.
  - exists Zod.too_small.
    destruct (Z.ltb_spec z 1); [|lia].
    destruct (Z.ltb_spec 100 z); [lia|].
    simpl. repeat split; auto. lia.
  - exists Zod.too_big.
    destruct (Z.ltb_spec z 1); [lia|].
    destruct (Z.ltb_spec 100 z); [|lia].
    simpl. repeat split; auto. lia.
Qed.

(** C5. A tool whose schema spreads [paginationSchema] and that is invoked
    with a [limit] outside 1..100 (0 and 101 among them) is rejected with
    an InvalidArgument error that names the field [limit]; the handler does
    not run, and the world, with its log of outbound requests, is as
    before: no request is attempted. *)
Theorem out_of_range_limit_rejected (t : Tool)
  (raw : list (string * Json.value)) (z : Z) (w : World) :
  In ("limit",
      Zod.optional (Zod.number [Zod.int; Zod.min 1; Zod.max MAX_LIMIT]))
     (inputSchema t) ->
  Json.get "limit" raw = Some (Json.JNum z) ->
  z < 1 \/ 100 < z ->
  exists issues : list Zod.Issue,
    callTool t raw w = (InvalidArgument (tool_name t) issues, w)
    /\ (exists i : Zod.Issue, In i issues /\ Zod.path i = "limit")
    /\ outbound (snd (callTool t raw w)) = outbound w.
Proof.
  intros Hshape Hget Hrange.
  destruct (limit_out_of_range z Hrange) as (c & Hc & _).
  rewrite <- Hget in Hc.
  pose proof (parse_object_reports (inputSchema t) raw "limit" _ c Hshape Hc)
    as Hissue.
  unfold callTool.
  destruct (Zod.parse_object (inputSchema t) raw) as [|i issues] eqn:Hparse;
    [contradiction|].
  exists (i :: issues). split; [reflexivity|]. split; [|reflexivity].
  exists (Zod.mkIssue "limit" c). split; [exact Hissue|reflexivity].
Qed.

Lemma out_of_range_limit_rejected_witness :
  exists issues : list Zod.Issue,
    callTool (list_servers_tool no_json two_servers)
      [("limit", Json.JNum 101)] initialised
    = (InvalidArgument "timeweb_list_servers" issues, initialised)
    /\ (exists i : Zod.Issue, In i issues /\ Zod.path i = "limit")
    /\ outbound
         (snd (callTool (list_servers_tool no_json two_servers)
                 [("limit", Json.JNum 101)] initialised))
       = outbound initialised.
Proof.
  apply (out_of_range_limit_rejected (list_servers_tool no_json two_servers)
           [("limit", Json.JNum 101)] 101 initialised).
  - simpl. auto.
  - reflexivity.
  - lia.
Defined.

(** The handler itself never rejects a limit: called with 0 it falls back
    to the default, called with 101 it clamps to the maximum. *)
Lemma handler_limit_fallback (o : option Z) (f : option ResponseFormat) :
  effective_limit (mkListArgs (Some 0) o f) = DEFAULT_LIMIT
  /\ effective_limit (mkListArgs (Some 101) o f) = MAX_LIMIT
  /\ effective_limit (mkListArgs None o f) = DEFAULT_LIMIT.
Proof. repeat split; reflexivity. Qed.

(** The same two invocations, run: 0 is too small, 101 too big, and a
    limit inside the range reaches the backend. *)
Lemma limit_0_and_101_rejected :
  callTool (list_servers_tool no_json two_servers)
    [("limit", Json.JNum 0)] initialised
  = (InvalidArgument "timeweb_list_servers"
       [Zod.mkIssue "limit" Zod.too_small], initialised)
  /\ callTool (list_databases_tool no_json no_databases)
       [("limit", Json.JNum 101)] initialised
     = (InvalidArgument "timeweb_list_databases"
          [Zod.mkIssue "limit" Zod.too_big], initialised)
  /\ length
       (outbound
          (snd (callTool (list_servers_tool no_json two_servers)
                  [("limit", Json.JNum 100)] initialised))) = 1%nat.
Proof. repeat split; vm_compute; reflexivity. Qed.

(* ===================================================================== *)
(** * C6 and C10: the body of a create request                           *)
(* ===================================================================== *)

Lemma assign_if_string_drop k v body :
  assign_if_string k (drop_falsy_string v) body = assign_if_string k v body.
Proof.
  destruct v as [s|]; simpl; [|reflexivity].
  destruct (Js.truthy_string s) eqn:Hs; simpl; [now rewrite Hs|reflexivity].
Qed.

Lemma assign_if_number_drop k v body :
  assign_if_number k (drop_falsy_number v) body = assign_if_number k v body.
Proof.
  destruct v as [z|]; simpl; [|reflexivity].
  destruct (Js.truthy_number z) eqn:Hz; simpl; [now rewrite Hz|reflexivity].
Qed.

Lemma assign_configurator_drop k v body :
  Servers.assign_configurator k (drop_falsy_number v) body
  = Servers.assign_configurator k v body.
Proof.
  destruct v as [z|]; simpl; [|reflexivity].
  destruct (Js.truthy_number z) eqn:Hz; simpl; [now rewrite Hz|reflexivity].
Qed.

Lemma truthy_opt_number_drop v :
  Js.truthy_opt_number (drop_falsy_number v) = Js.truthy_opt_number v.
Proof.
  destruct v as [z|]; simpl; [|reflexivity].
  destruct (Js.truthy_number z) eqn:Hz; simpl; [exact Hz|reflexivity].
Qed.



(** The claim of C6 as the specification words it fails for a create
    operation inside an enclosing resource: [group_id] is a required
    argument of [timeweb_create_firewall_rule] and no field of its body,
    which holds the other three required arguments; the identifier is
    part of the path of the request. *)
Lemma create_firewall_rule_body_has_no_group_id :
  Json.keys
    (Firewall.create_firewall_rule_body
       (Firewall.mkCreateRuleArgs 12 "ingress" "tcp" None "0.0.0.0/0" None
          None))
  = ["direction"; "protocol"; "cidr"]
  /\ Json.get "group_id"
       (Firewall.create_firewall_rule_body
          (Firewall.mkCreateRuleArgs 12 "ingress" "tcp" None "0.0.0.0/0" None
             None))
     = None
  /\ Firewall.create_firewall_rule_request
       (Firewall.mkCreateRuleArgs 12 "ingress" "tcp" None "0.0.0.0/0" None
          None)
     = mkConfig POST "/api/v1/firewall/groups/12/rules" None
         (Some
            (Json.JObj
               [("direction", Json.JStr "ingress");
                ("protocol", Json.JStr "tcp");
                ("cidr", Json.JStr "0.0.0.0/0")])).
Proof. repeat split. Qed.



(** C10. An optional argument that a create handler guards by truthiness
    and that is supplied with a falsy value (the empty string, 0) is left
    out of the body, which is then the body of the invocation that does
    not supply the argument: login, password, hash_type and location of
    [timeweb_create_database]; bandwidth and location (and preset_id, cpu,
    ram, disk) of [timeweb_create_server]; and the string arguments of the
    create handlers for Kubernetes clusters, firewall groups and rules,
    floating IPs and VPCs. *)
Theorem falsy_optional_is_omitted :
  drop_falsy_string (Some EmptyString) = None
  /\ drop_falsy_number (Some 0) = None
  /\ (forall k body,
        assign_if_string k (Some EmptyString) body
        = assign_if_string k None body)
  /\ (forall k body,
        assign_if_number k (Some 0) body = assign_if_number k None body)
  /\ (forall name type preset_id login password hash_type location fmt,
        Databases.create_database_body
          (Databases.mkCreateArgs name type preset_id login password
             hash_type location fmt)
        = Databases.create_database_body
            (Databases.mkCreateArgs name type preset_id
               (drop_falsy_string login) (drop_falsy_string password)
               (drop_falsy_string hash_type) (drop_falsy_string location)
               fmt))
  /\ (forall name os_id preset_id cpu ram disk bandwidth location keys ddos
             fmt,
        Servers.create_server_body
          (Servers.mkCreateArgs name os_id preset_id cpu ram disk bandwidth
             location keys ddos fmt)
        = Servers.create_server_body
            (Servers.mkCreateArgs name os_id (drop_falsy_number preset_id)
               (drop_falsy_number cpu) (drop_falsy_number ram)
               (drop_falsy_number disk) (drop_falsy_number bandwidth)
               (drop_falsy_string location) keys ddos fmt))
  /\ (forall name version preset_id groups driver ingress description fmt,
        Kubernetes.create_k8s_cluster_body
          (Kubernetes.mkCreateArgs name version preset_id groups driver
             ingress description fmt)
        = Kubernetes.create_k8s_cluster_body
            (Kubernetes.mkCreateArgs name (drop_falsy_string version)
               preset_id groups (drop_falsy_string driver) ingress
               (drop_falsy_string description) fmt))
  /\ (forall name description incoming outgoing fmt,
        Firewall.create_firewall_group_body
          (Firewall.mkCreateGroupArgs name description incoming outgoing fmt)
        = Firewall.create_firewall_group_body
            (Firewall.mkCreateGroupArgs name (drop_falsy_string description)
               (drop_falsy_string incoming) (drop_falsy_string outgoing)
               fmt))
  /\ (forall group_id direction protocol port cidr description fmt,
        Firewall.create_firewall_rule_body
          (Firewall.mkCreateRuleArgs group_id direction protocol port cidr
             description fmt)
        = Firewall.create_firewall_rule_body
            (Firewall.mkCreateRuleArgs group_id direction protocol
               (drop_falsy_string port) cidr (drop_falsy_string description)
               fmt))
  /\ (forall zone ddos comment fmt,
        FloatingIps.create_floating_ip_body
          (FloatingIps.mkCreateArgs zone ddos comment fmt)
        = FloatingIps.create_floating_ip_body
            (FloatingIps.mkCreateArgs (drop_falsy_string zone) ddos
               (drop_falsy_string comment) fmt))
  /\ (forall name subnet location description fmt,
        Vpc.create_vpc_body
          (Vpc.mkCreateArgs name subnet location description fmt)
        = Vpc.create_vpc_body
            (Vpc.mkCreateArgs name (drop_falsy_string subnet)
               (drop_falsy_string location) (drop_falsy_string description)
               fmt)).
Proof.
  repeat split; intros;
    unfold Databases.create_database_body, Servers.create_server_body,
      Kubernetes.create_k8s_cluster_body, Firewall.create_firewall_group_body,
      Firewall.create_firewall_rule_body, FloatingIps.create_floating_ip_body,
      Vpc.create_vpc_body;
    simpl;
    now rewrite ?truthy_opt_number_drop, ?assign_if_number_drop,
      ?assign_configurator_drop, ?assign_if_string_drop.
Qed.

(** The bodies of C10, run on concrete invocations. *)
Lemma falsy_arguments_examples :
  Databases.create_database_body
    (Databases.mkCreateArgs "orders" "mysql" 7 (Some EmptyString)
       (Some EmptyString) None None None)
  = [("name", Json.JStr "orders"); ("type", Json.JStr "mysql");
     ("preset_id", Json.JNum 7)]
  /\ Servers.create_server_body
       (Servers.mkCreateArgs "web" 79 None None None None (Some 0)
          (Some EmptyString) None None None)
     = [("name", Json.JStr "web"); ("os_id", Json.JNum 79)]
  /\ Servers.create_server_body
       (Servers.mkCreateArgs "web" 79 None (Some 2) (Some 2048) None
          (Some 100) (Some "ru-1") None (Some false) None)
     = [("name", Json.JStr "web"); ("os_id", Json.JNum 79);
        ("configurator",
         Json.JObj [("cpu", Json.JNum 2); ("ram", Json.JNum 2048)]);
        ("bandwidth", Json.JNum 100); ("location", Json.JStr "ru-1");
        ("is_ddos_guard", Json.JBool false)].
Proof. repeat split; vm_compute; reflexivity. Qed.

(* ===================================================================== *)
(** * Further properties of services/api.ts                              *)
(* ===================================================================== *)

(** X1. Whatever is thrown, [handleApiError] answers with a text that
    opens with "Error: ". *)
Theorem handleApiError_opens_with_Error (error : Exn) :
  Js.startsWith (handleApiError error) "Error: " = true.
Proof.
  unfold Js.startsWith.
  destruct error as [[r|] [code|] m|m|v]; cbn [handleApiError];
    repeat match goal with
           | |- context [if ?b then _ else _] => destruct b
           end;
    reflexivity.
Qed.

(** X2. Two failed responses whose statuses differ and are both among the
    eight statuses with a message of their own never get the same text,
    whatever the bodies say: the text tells the statuses apart. *)
Theorem mapped_statuses_have_distinct_messages
  (s1 s2 : Z) (b1 b2 : option MessageField) (c1 c2 : option string)
  (m1 m2 : string) :
  In s1 mapped_statuses -> In s2 mapped_statuses -> s1 <> s2 ->
  handleApiError (AxiosError (Some (mkErrorResponse s1 b1)) c1 m1)
  <> handleApiError (AxiosError (Some (mkErrorResponse s2 b2)) c2 m2).
Proof.
  unfold mapped_statuses. intros H1 H2 Hne.
  simpl in H1, H2.
  repeat match goal with
         | H : _ \/ _ |- _ => destruct H as [H|H]
         | H : False |- _ => destruct H
         end;
    subst; try congruence; cbn; intros Heq; discriminate Heq.
Qed.

Lemma mapped_statuses_have_distinct_messages_witness :
  handleApiError
    (AxiosError (Some (mkErrorResponse 404 (Some (MsgString "gone")))) None
       "a")
  <> handleApiError
       (AxiosError (Some (mkErrorResponse 409 (Some (MsgString "gone")))) None
          "a").
Proof.
  apply (mapped_statuses_have_distinct_messages 404 409);
    [simpl; auto 10|simpl; auto 10|lia].
Defined.

(** X3. A failure that never reached a status and whose transport code is
    neither ECONNABORTED nor ENOTFOUND (a refused connection, say) is
    reported as an unexpected error with the failure's own text, not as a
    timeout or a connectivity problem. *)
Theorem other_transport_codes_are_unexpected (code m : string) :
  code <> "ECONNABORTED" -> code <> "ENOTFOUND" ->
  handleApiError (AxiosError None (Some code) m)
  = "Error: Unexpected error occurred: " ++ m
  /\ handleApiError (AxiosError None (Some code) m)
     = handleApiError (Error m).
Proof.
  intros Ha Hn. cbn [handleApiError].
  destruct (String.eqb_spec code "ECONNABORTED"); [contradiction|].
  destruct (String.eqb_spec code "ENOTFOUND"); [contradiction|].
  split; reflexivity.
Qed.

Lemma other_transport_codes_are_unexpected_witness :
  handleApiError
    (AxiosError None (Some "ECONNREFUSED") "connect ECONNREFUSED")
  = "Error: Unexpected error occurred: " ++ "connect ECONNREFUSED".
Proof.
  apply (other_transport_codes_are_unexpected "ECONNREFUSED"
           "connect ECONNREFUSED"); discriminate.
Defined.

Lemma append_empty_r (s : string) : s ++ EmptyString = s.
Proof. induction s as [|c s IH]; simpl; [reflexivity|now rewrite IH]. Qed.

(** Two-decimal rounding of a quotient of integers, on the integers. *)
Lemma toFixed2_quotient (a d : Z) :
  0 <= a -> 0 < d ->
  toFixed2 (inject_Z a / inject_Z d)%Q = (200 * a + d) / (2 * d).
Proof.
  intros Ha Hd. unfold toFixed2.
  assert (Hdq : ~ (inject_Z d == 0)%Q).
  { intros H. apply (inject_Z_injective d 0) in H. lia. }
  assert (Hnonneg : Qle_bool 0 (inject_Z a / inject_Z d) = true).
  { apply Qle_bool_iff. apply Qle_shift_div_l.
    - change (inject_Z 0 < inject_Z d)%Q. rewrite <- Zlt_Qlt. exact Hd.
    - rewrite Qmult_0_l. change (inject_Z 0 <= inject_Z a)%Q.
      rewrite <- Zle_Qle. exact Ha. }
  rewrite Hnonneg. rewrite Zdiv_Qdiv. apply Qfloor_comp.
  rewrite !inject_Z_plus, !inject_Z_mult. field. exact Hdq.
Qed.




(** X5. A count of 1 to 1023 bytes is printed as it is, without decimals,
    in the unit B; a negative count is printed as "NaN undefined". *)
Theorem formatBytes_below_one_KB_and_negative (bytes : Z) :
  (1 <= bytes < 1024 -> formatBytes bytes = Js.string_of_Z bytes ++ " B")
  /\ (bytes < 0 -> formatBytes bytes = "NaN undefined").
Proof.
  split.
  - intros [Hlow Hhigh].
    unfold formatBytes, log_k_floor.
    destruct (Z.eqb_spec bytes 0); [lia|].
    destruct (Z.ltb_spec bytes 0); [lia|].
    assert (Hlog : Z.log2 bytes / 10 = 0).
    { apply Z.div_small. split; [apply Z.log2_nonneg|].
      apply Z.log2_lt_pow2; [lia|]. change (2 ^ 10) with 1024. lia. }
    rewrite Hlog. change (1024 ^ 0) with 1.
    rewrite toFixed2_quotient by lia.
    replace ((200 * bytes + 1) / (2 * 1)) with (bytes * 100).
    2:{ apply Z.div_unique with (r := 1); lia. }
    unfold parseFloat_toString.
    destruct (Z.ltb_spec (bytes * 100) 0); [lia|].
    rewrite Z.abs_eq by lia.
    rewrite Z.div_mul by lia. rewrite Z.mod_mul by lia.
    cbn. now rewrite append_empty_r.
  - intros Hneg. unfold formatBytes, log_k_floor.
    destruct (Z.eqb_spec bytes 0); [lia|].
    destruct (Z.ltb_spec bytes 0); [reflexivity|lia].
Qed.

Lemma formatBytes_below_one_KB_and_negative_witness :
  formatBytes 512 = Js.string_of_Z 512 ++ " B"
  /\ formatBytes (-1) = "NaN undefined".
Proof.
  split.
  - apply (formatBytes_below_one_KB_and_negative 512). lia.
  - apply (formatBytes_below_one_KB_and_negative (-1)). lia.
Defined.

(** The summary carries the note only when there is more to show. *)
Lemma note_absent (total limit offset : Z) :
  hasMore total limit offset = false ->
  Js.includes more_results_note (buildPaginationResponse total limit offset)
  = false.
Proof.
  intros Hmore. unfold buildPaginationResponse. rewrite Hmore.
  unfold more_results_note. apply includes_needs_char.
  rewrite !free_of_app, !star_free_string_of_Z, !star_free_JsNum.
  reflexivity.
Qed.



(** X8. When the backend sends no total (or a total of 0), a list handler
    counts the items of the page instead; the summary of a page that fits
    the limit then never carries the more-results note, whatever lies
    beyond the page. *)
Theorem no_note_without_backend_total
  (server_json : Servers.Server -> Json.value)
  (net : Transport Servers.ListResponse) (args : ListArgs) (w : World)
  (client : AxiosInstance) (response : Servers.ListResponse) :
  let limit := effective_limit args in
  let offset := effective_offset args in
  let servers := or_empty (Servers.servers response) in
  apiClient w = Some client ->
  format_or_markdown (format args) = MARKDOWN ->
  net client
    (mkConfig GET "/api/v1/servers" (window_params limit offset) None)
  = inr response ->
  Js.truthy_opt_number (meta_total (Servers.meta response)) = false ->
  0 <= offset ->
  Z.of_nat (length servers) <= limit ->
  exists summary : string,
    fst (Servers.timeweb_list_servers server_json net args w)
    = Returned
        (text_result
           (rendered_page "# Cloud Servers" "No servers found." summary
              (map Servers.formatServer servers)))
    /\ summary
       = buildPaginationResponse (Z.of_nat (length servers)) limit offset
    /\ Js.includes more_results_note summary = false.
Proof.
  intros limit offset servers Hc Hfmt Hnet Htotal Hoffset Hfits.
  exists (buildPaginationResponse (Z.of_nat (length servers)) limit offset).
  split; [|split; [reflexivity|]].
  - rewrite (list_servers_markdown server_json net args w client response
               Hc Hfmt Hnet).
    fold limit offset servers. do 3 f_equal.
    unfold Js.or_number. unfold Js.truthy_opt_number in Htotal.
    destruct (meta_total (Servers.meta response)) as [z|]; [|reflexivity].
    now rewrite Htotal.
  - apply note_absent. unfold hasMore.
    assert (limit <= MAX_LIMIT) by (unfold limit, effective_limit; lia).
    unfold MAX_LIMIT in *.
    rewrite less_nearest by lia. apply Z.ltb_ge. lia.
Qed.

Lemma no_note_without_backend_total_witness :
  exists summary : string,
    fst (Servers.timeweb_list_servers no_json
           (fun _ _ =>
              inr (Servers.mkListResponse (Some [web_1; web_2]) None))
           (mkListArgs (Some 2) None None) initialised)
    = Returned
        (text_result
           (rendered_page "# Cloud Servers" "No servers found." summary
              (map Servers.formatServer [web_1; web_2])))
    /\ summary = buildPaginationResponse 2 2 0
    /\ Js.includes more_results_note summary = false.
Proof.
  apply (no_note_without_backend_total no_json
           (fun _ _ =>
              inr (Servers.mkListResponse (Some [web_1; web_2]) None))
           (mkListArgs (Some 2) None None) initialised the_client
           (Servers.mkListResponse (Some [web_1; web_2]) None));
    try reflexivity; simpl; unfold effective_limit; simpl; lia.
Defined.

(* ===================================================================== *)
(** * Further properties of schemas/common.ts and of validated calls     *)
(* ===================================================================== *)








(* ===================================================================== *)
(** * Further properties of the request bodies                           *)
(* ===================================================================== *)

Lemma get_set_same k v o : Json.get k (Json.set k v o) = Some v.
Proof.
  induction o as [|[k' v'] o IH]; simpl.
  - now rewrite String.eqb_refl.
  - destruct (String.eqb k k') eqn:Hk; simpl; now rewrite ?String.eqb_refl, ?Hk.
Qed.

Lemma get_set_other k k' v o :
  String.eqb k' k = false -> Json.get k' (Json.set k v o) = Json.get k' o.
Proof.
  intros Hne. induction o as [|[k0 v0] o IH]; simpl.
  - now rewrite Hne.
  - destruct (String.eqb_spec k k0) as [->|Hk]; simpl.
    + now rewrite Hne.
    + now rewrite IH.
Qed.

Lemma get_assign_if_string k k' v body :
  Json.get k' (assign_if_string k v body)
  = if String.eqb k' k
    then match drop_falsy_string v with
         | Some s => Some (Json.JStr s)
         | None => Json.get k' body
         end
    else Json.get k' body.
Proof.
  unfold assign_if_string, drop_falsy_string.
  destruct (String.eqb_spec k' k) as [->|Hne].
  - destruct v as [s|]; [|reflexivity].
    destruct (Js.truthy_string s); [apply get_set_same|reflexivity].
  - destruct v as [s|]; [|reflexivity].
    destruct (Js.truthy_string s); [|reflexivity].
    apply get_set_other. now apply String.eqb_neq.
Qed.

Lemma get_assign_if_number k k' v body :
  Json.get k' (assign_if_number k v body)
  = if String.eqb k' k
    then match drop_falsy_number v with
         | Some z => Some (Json.JNum z)
         | None => Json.get k' body
         end
    else Json.get k' body.
Proof.
  unfold assign_if_number, drop_falsy_number.
  destruct (String.eqb_spec k' k) as [->|Hne].
  - destruct v as [z|]; [|reflexivity].
    destruct (Js.truthy_number z); [apply get_set_same|reflexivity].
  - destruct v as [z|]; [|reflexivity].
    destruct (Js.truthy_number z); [|reflexivity].
    apply get_set_other. now apply String.eqb_neq.
Qed.

Lemma get_assign_if_array k k' v body :
  String.eqb k' k = false ->
  Json.get k' (assign_if_array k v body) = Json.get k' body.
Proof.
  intros Hne. destruct v; simpl; [now apply get_set_other|reflexivity].
Qed.

Lemma get_assign_if_defined_bool k k' v body :
  String.eqb k' k = false ->
  Json.get k' (assign_if_defined_bool k v body) = Json.get k' body.
Proof.
  intros Hne. destruct v; simpl; [now apply get_set_other|reflexivity].
Qed.

(** X11. In the body of [timeweb_create_database] every key holds the
    argument it is named after: name, type and preset_id hold the required
    arguments whatever the optional ones are, each of login, password,
    hash_type and location holds its argument when that is a non-empty
    string and is absent otherwise, and there is no other key. *)
Theorem create_database_body_lookup (args : Databases.CreateArgs) :
  let body := Databases.create_database_body args in
  Json.get "name" body = Some (Json.JStr (Databases.arg_name args))
  /\ Json.get "type" body = Some (Json.JStr (Databases.arg_type args))
  /\ Json.get "preset_id" body
     = Some (Json.JNum (Databases.arg_preset_id args))
  /\ Json.get "login" body
     = option_map Json.JStr (drop_falsy_string (Databases.arg_login args))
  /\ Json.get "password" body
     = option_map Json.JStr (drop_falsy_string (Databases.arg_password args))
  /\ Json.get "hash_type" body
     = option_map Json.JStr (drop_falsy_string (Databases.arg_hash_type args))
  /\ Json.get "location" body
     = option_map Json.JStr (drop_falsy_string (Databases.arg_location args))
  /\ (forall k : string, ~ In k database_body_keys -> Json.get k body = None).
Proof.
  intros body. subst body. unfold Databases.create_database_body.
  assert (Hrest : forall k : string,
             ~ In k database_body_keys ->
             Json.get k
               (assign_if_string "location" (Databases.arg_location args)
                  (assign_if_string "hash_type" (Databases.arg_hash_type args)
                     (assign_if_string "password"
                        (Databases.arg_password args)
                        (assign_if_string "login" (Databases.arg_login args)
                           [("name", Json.JStr (Databases.arg_name args));
                            ("type", Json.JStr (Databases.arg_type args));
                            ("preset_id",
                             Json.JNum (Databases.arg_preset_id args))]))))
             = None).
  { intros k Hk. rewrite !get_assign_if_string.
    assert (Hne : forall x, In x database_body_keys -> String.eqb k x = false).
    { intros x Hx. apply String.eqb_neq. intros ->. contradiction. }
    cbn [Json.get].
    rewrite !Hne by (unfold database_body_keys; simpl; auto 10).
    reflexivity. }
  do 7 (split; [rewrite ?get_assign_if_string;
                cbn [String.eqb Ascii.eqb Bool.eqb Json.get];
                try (now destruct (drop_falsy_string _)); reflexivity|]).
  exact Hrest.
Qed.

(** X12. In the body of [timeweb_create_server] a preset and a custom
    configuration exclude each other: with a non-zero preset_id the body
    holds it and has no configurator, even when cpu, ram or disk are given;
    without one it has no preset_id, and its configurator is the object of
    the non-zero cpu, ram and disk, in that order, or is absent when there
    is none of them. *)
Theorem create_server_preset_or_configurator (args : Servers.CreateArgs) :
  let body := Servers.create_server_body args in
  Json.get "preset_id" body
  = option_map Json.JNum (drop_falsy_number (Servers.arg_preset_id args))
  /\ Json.get "configurator" body
     = if Js.truthy_opt_number (Servers.arg_preset_id args) then None
       else
         match (field_if_number "cpu" (Servers.arg_cpu args)
                  ++ field_if_number "ram" (Servers.arg_ram args)
                  ++ field_if_number "disk" (Servers.arg_disk args))%list
         with
         | [] => None
         | fields => Some (Json.JObj fields)
         end.
Proof.
  intros body. subst body. unfold Servers.create_server_body.
  split;
    rewrite get_assign_if_defined_bool, get_assign_if_array,
      get_assign_if_string, get_assign_if_number by reflexivity;
    cbn [String.eqb Ascii.eqb Bool.eqb];
    unfold Js.truthy_opt_number, Servers.assign_configurator,
      assign_if_number, field_if_number, drop_falsy_number,
      Servers.spread_configurator;
    destruct (Servers.arg_preset_id args) as [p|];
    destruct (Servers.arg_cpu args) as [c|];
    destruct (Servers.arg_ram args) as [r|];
    destruct (Servers.arg_disk args) as [d|];
    repeat match goal with
           | |- context [Js.truthy_number ?z] =>
               destruct (Js.truthy_number z)
           end;
    reflexivity.
Qed.

(** X13. The query of the statistics request holds the dates that were
    given as non-empty strings, date_from before date_to, and the request
    has no query at all when neither was. *)
Theorem statistics_query (date_from date_to : option string) :
  Servers.statistics_params date_from date_to
  = match (field_if_string "date_from" date_from
             ++ field_if_string "date_to" date_to)%list with
    | [] => None
    | query => Some query
    end
  /\ (Servers.statistics_params date_from date_to = None
      <-> drop_falsy_string date_from = None
          /\ drop_falsy_string date_to = None).
Proof.
  unfold Servers.statistics_params, assign_if_string, field_if_string,
    drop_falsy_string.
  destruct date_from as [a|]; destruct date_to as [b|];
    repeat match goal with
           | |- context [Js.truthy_string ?s] => destruct (Js.truthy_string s)
           end;
    cbn; split; try reflexivity; split;
    try discriminate; try (intros [H1 H2]; discriminate); auto.
Qed.

(* ===================================================================== *)
(** * Further properties of the client and of the handlers               *)
(* ===================================================================== *)

(** X14. A call to [makeApiRequest] never changes the client and sends at
    most one request: none, with the not-initialized error, when there is no
    client; exactly the request it was asked for, through the client of the
    process, when there is one, and then the answer or the failure of the
    backend is what the call gives. *)
Theorem one_request_per_call {T : Type} (net : Transport T)
  (method : Method) (endpoint : string)
  (params : option (list (string * Json.value))) (data : option Json.value)
  (w : World) :
  let config := mkConfig method endpoint params data in
  let result := makeApiRequest net method endpoint params data w in
  apiClient (snd result) = apiClient w
  /\ match apiClient w with
     | None =>
         outbound (snd result) = outbound w
         /\ fst result = Threw (Error not_initialized)
     | Some client =>
         outbound (snd result) = (outbound w ++ [(client, config)])%list
         /\ fst result
            = match net client config with
              | inl e => Threw e
              | inr payload => Returned payload
              end
     end.
Proof.
  unfold makeApiRequest, bind, getApiClient, request, ret, throw.
  destruct (apiClient w) as [client|] eqn:Hc; cbv beta iota zeta.
  - destruct (net client _); cbn; rewrite ?Hc; auto.
  - cbn. auto.
Qed.

(** X15. The client is the one of the latest initialisation: after
    [initializeApiClient] ran with one token and then with another, a
    request goes to the base URL of the API with the timeout of the
    constants and carries the second token as its bearer, and the requests
    logged before are kept. *)
Theorem latest_token_is_sent {T : Type} (net : Transport T)
  (first second : string) (method : Method) (endpoint : string)
  (params : option (list (string * Json.value))) (data : option Json.value)
  (w : World) :
  let w' :=
    snd (initializeApiClient second (snd (initializeApiClient first w))) in
  exists client : AxiosInstance,
    outbound (snd (makeApiRequest net method endpoint params data w'))
    = (outbound w ++ [(client, mkConfig method endpoint params data)])%list
    /\ baseURL client = API_BASE_URL
    /\ timeout client = REQUEST_TIMEOUT
    /\ In ("Authorization", "Bearer " ++ second) (headers client)
    /\ forall value : string,
         In ("Authorization", value) (headers client) ->
         value = "Bearer " ++ second.
Proof.
  intros w'. eexists. split.
  - unfold makeApiRequest, bind, getApiClient, request, ret. subst w'.
    cbn. destruct (net _ _); reflexivity.
  - cbn. repeat split; auto.
    intros value [H|[H|[H|[]]]]; inversion H; reflexivity.
Qed.

Lemma write_call {T : Type} (net : Transport T) (method : Method)
  (endpoint : string) (k : T -> M ToolResult) (done : ToolResult)
  (w : World) (client : AxiosInstance) :
  apiClient w = Some client ->
  (forall payload, k payload = ret done) ->
  outbound
    (snd ((ignored <- makeApiRequest net method endpoint None None ;;
           k ignored) w))
  = (outbound w ++ [(client, mkConfig method endpoint None None)])%list
  /\ fst ((ignored <- makeApiRequest net method endpoint None None ;;
           k ignored) w)
     = match net client (mkConfig method endpoint None None) with
       | inl e => Threw e
       | inr _ => Returned done
       end.
Proof.
  intros Hc Hk.
  unfold makeApiRequest, bind, getApiClient, request, ret.
  rewrite Hc. cbv beta iota zeta.
  destruct (net client _) as [e|payload]; cbn; [auto|].
  rewrite (Hk payload). cbn. auto.
Qed.

Lemma write_call_outbound {T : Type} (net : Transport T) (method : Method)
  (endpoint : string) (k : T -> M ToolResult)
  (w : World) (client : AxiosInstance) :
  apiClient w = Some client ->
  (forall payload w', snd (k payload w') = w') ->
  outbound
    (snd ((ignored <- makeApiRequest net method endpoint None None ;;
           k ignored) w))
  = (outbound w ++ [(client, mkConfig method endpoint None None)])%list.
Proof.
  intros Hc Hk.
  unfold makeApiRequest, bind, getApiClient, request, ret.
  rewrite Hc. cbv beta iota zeta.
  destruct (net client _) as [e|payload]; cbn; [reflexivity|].
  now rewrite Hk.
Qed.

(** X16. The three writes on a resource addressed by its identifier
    (delete a server, delete a database cluster, run an action on a server)
    send one request without query or body on the path of the resource,
    and report success only when the backend answered: when it failed, the
    failure is what the invocation gives, and no success text. *)
Theorem writes_report_success_only_after_success {T : Type}
  (net : Transport T) (w : World) (client : AxiosInstance)
  (id : Z) (action : string) (fmt : option ResponseFormat) :
  apiClient w = Some client ->
  let server_path := "/api/v1/servers/" ++ Js.string_of_Z id in
  let db_path := "/api/v1/dbs/" ++ Js.string_of_Z id in
  let action_path := server_path ++ "/" ++ action in
  let deleted_server :=
    Servers.timeweb_delete_server net (Servers.mkIdArgs id fmt) w in
  let deleted_db :=
    Databases.timeweb_delete_database net (Databases.mkGetArgs id fmt) w in
  let acted :=
    Servers.timeweb_server_action net (Servers.mkActionArgs id action fmt) w in
  let sent (method : Method) (path : string) :=
    (outbound w ++ [(client, mkConfig method path None None)])%list in
  let outcome_of (method : Method) (path : string) (done : string) :=
    match net client (mkConfig method path None None) with
    | inl e => Threw e
    | inr _ => Returned (text_result done)
    end in
  outbound (snd deleted_server) = sent DELETE server_path
  /\ outbound (snd deleted_db) = sent DELETE db_path
  /\ outbound (snd acted) = sent POST action_path
  /\ fst deleted_server
     = outcome_of DELETE server_path
         (match format_or_markdown fmt with
          | JSON =>
              Json.stringify
                (Json.JObj [("success", Json.JBool true);
                            ("deleted_server_id", Json.JNum id)])
          | MARKDOWN =>
              "Server " ++ Js.string_of_Z id
                ++ " has been deleted successfully."
          end)
  /\ fst deleted_db
     = outcome_of DELETE db_path
         (match format_or_markdown fmt with
          | JSON =>
              Json.stringify
                (Json.JObj [("success", Json.JBool true);
                            ("deleted_db_id", Json.JNum id)])
          | MARKDOWN =>
              "Database cluster " ++ Js.string_of_Z id
                ++ " has been deleted successfully."
          end)
  /\ fst acted
     = outcome_of POST action_path
         (match format_or_markdown fmt with
          | JSON =>
              Json.stringify
                (Json.JObj [("success", Json.JBool true);
                            ("server_id", Json.JNum id);
                            ("action", Json.JStr action)])
          | MARKDOWN =>
              "Action **" ++ action ++ "** initiated successfully on server "
                ++ Js.string_of_Z id ++ "."
          end).
Proof.
  intros Hc server_path db_path action_path deleted_server deleted_db acted
    sent outcome_of.
  subst deleted_server deleted_db acted sent outcome_of.
  unfold Servers.timeweb_delete_server, Databases.timeweb_delete_database,
    Servers.timeweb_server_action.
  cbn [Servers.server_id Servers.id_format Databases.db_id
       Databases.get_format Servers.action_server_id Servers.action
       Servers.action_format].
  cbv zeta. fold server_path db_path. fold action_path.
  repeat split;
    match goal with
    | |- outbound (snd (bind (makeApiRequest ?n ?m ?p None None) ?k ?w0)) = _ =>
        refine (write_call_outbound n m p k w0 client Hc _);
        intros payload w'; now destruct (format_or_markdown fmt)
    | |- fst (bind (makeApiRequest ?n ?m ?p None None) ?k ?w0) = _ =>
        refine (proj2 (write_call n m p k _ w0 client Hc _));
        intros payload; now destruct (format_or_markdown fmt)
    end.
Qed.

Lemma writes_report_success_only_after_success_witness :
  fst (Servers.timeweb_delete_server (T := unit) backend_404
         (Servers.mkIdArgs 7 None) initialised)
  = Threw not_found.
Proof.
  apply (writes_report_success_only_after_success (T := unit) backend_404
           initialised the_client 7 "reboot" None).
  reflexivity.
Defined.

(** The decimal form of an integer reads back as that integer. *)
Lemma string_of_Z_reads_back (z : Z) :
  option_map Z.of_int (NilZero.int_of_string (Js.string_of_Z z)) = Some z.
Proof.
  unfold Js.string_of_Z.
  rewrite <- (DecimalZ.of_to z) at 2.
  destruct (Z.to_int z) as [u|u]; destruct u;
    try (rewrite NilZero.isi by discriminate; reflexivity);
    reflexivity.
Qed.

Lemma string_of_Z_injective (a b : Z) :
  Js.string_of_Z a = Js.string_of_Z b -> a = b.
Proof.
  intros H.
  pose proof (string_of_Z_reads_back a) as Ha.
  pose proof (string_of_Z_reads_back b) as Hb.
  rewrite H in Ha. congruence.
Qed.

(** X17. Detail requests for different identifiers go to different paths:
    the requests that [timeweb_get_database] and [timeweb_get_server] send
    for two different identifiers are never the same. *)
Theorem detail_paths_tell_identifiers_apart
  (database_json : Databases.DatabaseCluster -> Json.value)
  (server_json : Servers.Server -> Json.value)
  (net_d : Transport Databases.DbResponse)
  (net_s : Transport Servers.CreateResponse)
  (w : World) (client : AxiosInstance) (a b : Z)
  (fa fb : option ResponseFormat) :
  apiClient w = Some client ->
  a <> b ->
  outbound
    (snd (Databases.timeweb_get_database database_json net_d
            (Databases.mkGetArgs a fa) w))
  <> outbound
       (snd (Databases.timeweb_get_database database_json net_d
               (Databases.mkGetArgs b fb) w))
  /\ outbound
       (snd (Servers.timeweb_get_server server_json net_s
               (Servers.mkIdArgs a fa) w))
     <> outbound
          (snd (Servers.timeweb_get_server server_json net_s
                  (Servers.mkIdArgs b fb) w)).
Proof.
  intros Hc Hne.
  assert (Hsent : forall (T : Type) (net : Transport T) (path : string)
                         (k : T -> M ToolResult),
             (forall payload w', snd (k payload w') = w') ->
             outbound
               (snd ((r <- makeApiRequest net GET path None None ;; k r) w))
             = (outbound w ++ [(client, mkConfig GET path None None)])%list).
  { intros T net path k Hk. now apply write_call_outbound. }
  unfold Databases.timeweb_get_database, Servers.timeweb_get_server.
  cbn [Databases.db_id Databases.get_format Servers.server_id
       Servers.id_format]. cbv zeta.
  split; intros H;
    rewrite !Hsent in H
      by (intros payload w'; now destruct (format_or_markdown _));
    apply app_inv_head in H; injection H as H;
    apply string_of_Z_injective in H; contradiction.
Qed.

Lemma detail_paths_tell_identifiers_apart_witness :
  outbound
    (snd (Databases.timeweb_get_database no_json backend_404
            (Databases.mkGetArgs 7 None) initialised))
  <> outbound
       (snd (Databases.timeweb_get_database no_json backend_404
               (Databases.mkGetArgs 8 None) initialised)).
Proof.
  apply (detail_paths_tell_identifiers_apart no_json no_json backend_404
           backend_404 initialised the_client 7 8 None None);
    [reflexivity|lia].
Defined.

(** X18. One server reads the same in every rendered view: the detail
    view of [timeweb_get_server] is its section, the list view of a page
    that holds only this server ends with that section, and the answer to
    its creation is that section under the heading of the creation. *)
Theorem server_section_is_the_same_in_every_view
  (server_json : Servers.Server -> Json.value)
  (net_get net_create : Transport Servers.CreateResponse)
  (net_list : Transport Servers.ListResponse)
  (w : World) (client : AxiosInstance) (srv : Servers.Server)
  (id : Z) (largs : ListArgs) (cargs : Servers.CreateArgs) :
  apiClient w = Some client ->
  format_or_markdown (format largs) = MARKDOWN ->
  format_or_markdown (Servers.arg_format cargs) = MARKDOWN ->
  net_get client
    (mkConfig GET ("/api/v1/servers/" ++ Js.string_of_Z id) None None)
  = inr (Servers.mkCreateResponse srv) ->
  net_list client
    (mkConfig GET "/api/v1/servers"
       (window_params (effective_limit largs) (effective_offset largs)) None)
  = inr (Servers.mkListResponse (Some [srv]) None) ->
  net_create client
    (mkConfig POST "/api/v1/servers" None
       (Some (Json.JObj (Servers.create_server_body cargs))))
  = inr (Servers.mkCreateResponse srv) ->
  exists section : string,
    section = Servers.formatServer srv
    /\ fst (Servers.timeweb_get_server server_json net_get
              (Servers.mkIdArgs id None) w)
       = Returned (text_result section)
    /\ fst (Servers.timeweb_list_servers server_json net_list largs w)
       = Returned
           (text_result
              ("# Cloud Servers" ++ Js.nl ++ Js.nl
                 ++ buildPaginationResponse 1 (effective_limit largs)
                      (effective_offset largs)
                 ++ Js.nl ++ Js.nl ++ section))
    /\ fst (Servers.timeweb_create_server server_json net_create cargs w)
       = Returned
           (text_result
              ("# Server Created Successfully" ++ Js.nl ++ Js.nl ++ section)).
Proof.
  intros Hc Hlfmt Hcfmt Hget Hlist Hcreate.
  exists (Servers.formatServer srv). split; [reflexivity|].
  split; [|split].
  - unfold Servers.timeweb_get_server. cbn [Servers.server_id Servers.id_format].
    cbv zeta. answered_call Hc Hget. reflexivity.
  - rewrite (list_servers_markdown server_json net_list largs w client _
               Hc Hlfmt Hlist). reflexivity.
  - unfold Servers.timeweb_create_server. cbv zeta.
    answered_call Hc Hcreate. now rewrite Hcfmt.
Qed.

Lemma server_section_is_the_same_in_every_view_witness :
  exists section : string,
    section = Servers.formatServer web_1
    /\ fst (Servers.timeweb_get_server no_json
              (fun _ _ => inr (Servers.mkCreateResponse web_1))
              (Servers.mkIdArgs 101 None) initialised)
       = Returned (text_result section)
    /\ fst (Servers.timeweb_list_servers no_json
              (fun _ _ => inr (Servers.mkListResponse (Some [web_1]) None))
              (mkListArgs None None None) initialised)
       = Returned
           (text_result
              ("# Cloud Servers" ++ Js.nl ++ Js.nl
                 ++ buildPaginationResponse 1
                      (effective_limit (mkListArgs None None None))
                      (effective_offset (mkListArgs None None None))
                 ++ Js.nl ++ Js.nl ++ section))
    /\ fst (Servers.timeweb_create_server no_json
              (fun _ _ => inr (Servers.mkCreateResponse web_1))
              (Servers.mkCreateArgs "web-1" 79 None None None None None None
                 None None None) initialised)
       = Returned
           (text_result
              ("# Server Created Successfully" ++ Js.nl ++ Js.nl ++ section)).
Proof.
  apply (server_section_is_the_same_in_every_view no_json
           (fun _ _ => inr (Servers.mkCreateResponse web_1))
           (fun _ _ => inr (Servers.mkCreateResponse web_1))
           (fun _ _ => inr (Servers.mkListResponse (Some [web_1]) None))
           initialised the_client web_1 101 (mkListArgs None None None)
           (Servers.mkCreateArgs "web-1" 79 None None None None None None
              None None None));
    reflexivity.
Defined.

(* ===================================================================== *)
(** * Further properties of index.ts                                     *)
(* ===================================================================== *)




Lemma create_database_body_lookup_witness :
  Json.get "comment"
    (Databases.create_database_body
       (Databases.mkCreateArgs "orders" "postgres" 7 (Some "root") None None
          None None)) = None.
Proof.
  apply (create_database_body_lookup
           (Databases.mkCreateArgs "orders" "postgres" 7 (Some "root") None
              None None None)).
  vm_compute. intuition discriminate.
Defined.

Lemma statistics_query_witness :
  Servers.statistics_params (Some EmptyString) None = None.
Proof.
  apply (statistics_query (Some EmptyString) None).
  split; reflexivity.
Defined.

Lemma latest_token_is_sent_witness :
  exists client : AxiosInstance,
    outbound
      (snd (makeApiRequest (T := unit) backend_404 GET "/api/v1/servers"
              None None
              (snd (initializeApiClient "new"
                      (snd (initializeApiClient "old" (mkWorld None [])))))))
    = ([] ++ [(client, mkConfig GET "/api/v1/servers" None None)])%list
    /\ baseURL client = API_BASE_URL
    /\ timeout client = REQUEST_TIMEOUT
    /\ In ("Authorization", "Bearer " ++ "new") (headers client)
    /\ forall value : string,
         In ("Authorization", value) (headers client) ->
         value = "Bearer " ++ "new".
Proof.
  exact (latest_token_is_sent (T := unit) backend_404 "old" "new" GET
           "/api/v1/servers" None None (mkWorld None [])).
Defined.
